(** * Airflow monitor synchronisation core of dbnd: data records, component
      error boundary, sync cycle and REST client readiness probe.

    The development embeds the Python sources

    - [airflow_monitor/common/airflow_data.py]  (watermark and fetch envelope),
    - [airflow_monitor/shared/base_component.py] (component, config refresh,
      [sync_once]),
    - [dbnd/utils/api_client.py]                 ([ApiClient]),

    as Rocq functions over a small universe of Python values, with
    exceptions as an explicit outcome type and object fields as records
    threaded through the calls. *)

From Stdlib Require Import ZArith Lia.
From stdpp Require Import gmap strings list fin_maps pretty.

Set Warnings "-register-all".
Set Default Proof Using "Type".

Local Open Scope Z_scope.
Local Open Scope string_scope.

(* ===================================================================== *)
(** ** Python values, exceptions and outcomes *)
(* ===================================================================== *)

(** The JSON-shaped part of Python's value universe.  A [dict] with string
    keys is a [gmap]; insertion order is forgotten, which no function
    below observes. *)
Inductive pyval : Type :=
| PyNone
| PyBool (b : bool)
| PyInt (z : Z)
| PyStr (s : string)
| PyList (l : list pyval)
| PyDict (m : gmap string pyval).

(** Exception classes (subclasses of [Exception]) that occur in the
    embedded code, followed by the four classes of the sync core's error
    taxonomy.  [OtherError] stands for any class outside the ones named
    here. *)
Inductive exn : Type :=
| TypeError
| AttributeError
| ValueError
| NotImplementedError
| UnicodeDecodeError
| RequestsConnectionError
| DatabandConnectionException
| DatabandApiError (method url : string) (status_code : Z) (body : string)
| TransientIOError
| AuthError
| MalformedResponseError
| PersistenceError
| OtherError (name : string).

(** How a call ends: it returns a value or raises. *)
Inductive outcome (A : Type) : Type :=
| Return (a : A)
| Raise (e : exn).
Arguments Return {A} a.
Arguments Raise {A} e.

(** Sequencing of calls: the first exception aborts what follows.  The
    instances give the notation [x ← m; k] of stdpp. *)
#[global] Instance outcome_ret : MRet outcome := @Return.
#[global] Instance outcome_bind : MBind outcome := λ A B k m,
  match m with
  | Return a => k a
  | Raise e => Raise e
  end.

(** [[f(x) for x in xs]]: elements are evaluated left to right and the
    first exception aborts the comprehension. *)
Fixpoint comprehension {A B} (f : A → outcome B) (xs : list A)
  : outcome (list B) :=
  match xs with
  | [] => Return []
  | x :: rest =>
      y ← f x;
      ys ← comprehension f rest;
      Return (y :: ys)
  end.

Definition returns {A} (o : outcome A) : bool :=
  match o with Return _ => true | Raise _ => false end.

Module Py.

(** [d.get(k)]: the bound value, or [None] when [k] is not a key. *)
Definition dict_get (d : gmap string pyval) (k : string) : pyval :=
  match d !! k with
  | Some v => v
  | None => PyNone
  end.

(** [x.get(k)] on an arbitrary value: only mappings have the method. *)
Definition get (x : pyval) (k : string) : outcome pyval :=
  match x with
  | PyDict d => Return (dict_get d k)
  | _ => Raise AttributeError
  end.

Fixpoint chars (s : string) : list pyval :=
  match s with
  | EmptyString => []
  | String c rest => PyStr (String c EmptyString) :: chars rest
  end.

(** [for x in v]: lists yield their elements, strings their characters,
    mappings their keys; [None], booleans and integers are not iterable. *)
Definition iter (v : pyval) : outcome (list pyval) :=
  match v with
  | PyList l => Return l
  | PyStr s => Return (chars s)
  | PyDict d => Return ((PyStr ∘ fst) <$> map_to_list d)
  | PyNone | PyBool _ | PyInt _ => Raise TypeError
  end.

Definition iterable (v : pyval) : Prop :=
  match v with
  | PyList _ | PyStr _ | PyDict _ => True
  | _ => False
  end.

Definition is_mapping (v : pyval) : Prop :=
  match v with PyDict _ => True | _ => False end.

(** Truth value of a value used as a condition. *)
Definition truthy (v : pyval) : bool :=
  match v with
  | PyNone => false
  | PyBool b => b
  | PyInt z => negb (Z.eqb z 0)
  | PyStr s => negb (String.eqb s "")
  | PyList l => negb (bool_decide (l = []))
  | PyDict d => negb (bool_decide (d = ∅))
  end.

Definition int_of (v : pyval) : option Z :=
  match v with
  | PyInt z => Some z
  | _ => None
  end.

(** An [Optional[int]] seen as a Python value. *)
Definition optional_int (o : option Z) : pyval :=
  match o with
  | Some z => PyInt z
  | None => PyNone
  end.

End Py.

(* ===================================================================== *)
(** ** airflow_data.py *)
(* ===================================================================== *)

(** [attr.s] classes carry no validators, so every field holds an
    arbitrary Python value; the type comments of the source are recorded
    next to the fields. *)

Module LastSeenValues.

Record t : Type := mk {
  last_seen_dag_run_id : pyval;  (* Optional[int] *)
  last_seen_log_id : pyval;      (* Optional[int] *)
}.

Definition as_dict (self : t) : gmap string pyval :=
  <["last_seen_dag_run_id" := last_seen_dag_run_id self]>
    (<["last_seen_log_id" := last_seen_log_id self]> ∅).

Definition from_dict (data : gmap string pyval) : t :=
  mk (Py.dict_get data "last_seen_dag_run_id")
     (Py.dict_get data "last_seen_log_id").

End LastSeenValues.

Module AirflowDagRun.

Record t : Type := mk {
  id : pyval;                          (* int *)
  dag_id : pyval;                      (* str *)
  execution_date : pyval;              (* str *)
  state : pyval;                       (* str *)
  is_paused : pyval;                   (* bool *)
  has_updated_task_instances : pyval;  (* bool *)
  max_log_id : pyval;                  (* int *)
  events : pyval;                      (* str, attr.ib(default=None) *)
}.

(** The constructor call with seven keyword arguments, as
    [AirflowDagRunsResponse.from_dict] writes it: [events] is not
    passed and takes its declared default. *)
Definition init (id dag_id execution_date state is_paused
                 has_updated_task_instances max_log_id : pyval) : t :=
  mk id dag_id execution_date state is_paused
     has_updated_task_instances max_log_id PyNone.

End AirflowDagRun.

Module AirflowDagRunsResponse.

Record t : Type := mk {
  dag_runs : list AirflowDagRun.t;
  last_seen_dag_run_id : pyval;  (* Optional[int] *)
  last_seen_log_id : pyval;      (* Optional[int] *)
}.

(** One element of the comprehension: seven [dr.get(...)] calls, in the
    order of the source. *)
Definition dag_run_of (dr : pyval) : outcome AirflowDagRun.t :=
  id ← Py.get dr "id";
  dag_id ← Py.get dr "dag_id";
  execution_date ← Py.get dr "execution_date";
  state ← Py.get dr "state";
  is_paused ← Py.get dr "is_paused";
  has_updated ← Py.get dr "has_updated_task_instances";
  max_log_id ← Py.get dr "max_log_id";
  Return (AirflowDagRun.init id dag_id execution_date state is_paused
            has_updated max_log_id).

Definition from_dict (data : gmap string pyval) : outcome t :=
  elements ← Py.iter (Py.dict_get data "new_dag_runs");
  dag_runs ← comprehension dag_run_of elements;
  Return (mk dag_runs
            (Py.dict_get data "last_seen_dag_run_id")
            (Py.dict_get data "last_seen_log_id")).

End AirflowDagRunsResponse.

Module TaskInstance.

(** Modelled from the spec: a task instance, which the sources at hand
    leave untyped, refers to its dag run by [dag_run_id]; the rest of it
    is kept as its body. *)
Record t : Type := mk {
  dag_run_id : Z;
  body : pyval;
}.

End TaskInstance.

Module DagRunsStateData.

(** The bulk envelope handed to the tracking service. *)
Record t : Type := mk {
  dag_runs : list AirflowDagRun.t;
  task_instances : list TaskInstance.t;
}.

End DagRunsStateData.

(* ===================================================================== *)
(** ** The part of Python's [logging] that [refresh_config] calls *)
(* ===================================================================== *)

Module logging.

(** A level argument is a number or a name. *)
Inductive level : Type :=
| LevelNo (n : Z)
| LevelName (s : string).

#[global] Instance level_eq_dec : EqDecision level.
Proof. solve_decision. Defined.

Definition CRITICAL : Z := 50.
Definition ERROR : Z := 40.
Definition WARNING : Z := 30.
Definition INFO : Z := 20.
Definition DEBUG : Z := 10.
Definition NOTSET : Z := 0.

Definition _levelToName : list (Z * string) :=
  [ (CRITICAL, "CRITICAL"); (ERROR, "ERROR"); (WARNING, "WARNING");
    (INFO, "INFO"); (DEBUG, "DEBUG"); (NOTSET, "NOTSET") ].

Definition _nameToLevel : list (string * Z) :=
  [ ("CRITICAL", CRITICAL); ("FATAL", CRITICAL); ("ERROR", ERROR);
    ("WARN", WARNING); ("WARNING", WARNING); ("INFO", INFO);
    ("DEBUG", DEBUG); ("NOTSET", NOTSET) ].

Fixpoint assoc {K V} `{EqDecision K} (k : K) (l : list (K * V)) : option V :=
  match l with
  | [] => None
  | (k', v) :: rest => if decide (k = k') then Some v else assoc k rest
  end.

(** ["%s" % level] *)
Definition format_level (l : level) : string :=
  match l with
  | LevelNo n => pretty n
  | LevelName s => s
  end.

(** [getLevelName]: the name of a known number, the number of a known
    name, and the text ["Level %s"] for anything else. *)
Definition getLevelName (l : level) : level :=
  match l with
  | LevelNo n =>
      match assoc n _levelToName with
      | Some name => LevelName name
      | None => LevelName ("Level " +:+ format_level l)
      end
  | LevelName s =>
      match assoc s _nameToLevel with
      | Some n => LevelNo n
      | None => LevelName ("Level " +:+ format_level l)
      end
  end.

Definition _checkLevel (l : level) : outcome Z :=
  match l with
  | LevelNo n => Return n
  | LevelName s =>
      match assoc s _nameToLevel with
      | Some n => Return n
      | None => Raise ValueError
      end
  end.

(** Truth value of an optional level in a condition: [None], [0] and the
    empty string are false. *)
Definition truthy (o : option level) : bool :=
  match o with
  | None => false
  | Some (LevelNo n) => negb (Z.eqb n 0)
  | Some (LevelName s) => negb (String.eqb s "")
  end.

End logging.

(* ===================================================================== *)
(** ** base_component.py *)
(* ===================================================================== *)

Module BaseServerConfig.

(** Modelled from the spec: [BaseServerConfig] is imported by
    [base_component.py] and not part of the sources at hand; the fields are
    the ones the component reads ([sync_interval], [log_level],
    [source_name], [uid]), as the spec's source configuration lists them.
    A [log_level] is absent, a level name or a level number. *)
Record t : Type := mk {
  uid : string;
  source_name : string;
  sync_interval : Z;
  log_level : option logging.level;
}.

End BaseServerConfig.

(** Modelled from the spec: the error classes of the health reporter and
    the record it keeps of a failed cycle. *)
Inductive error_class : Type :=
| TransientConnection
| Authentication
| MalformedResponse
| Persistence
| InternalBug.

Record failure_record : Type := mk_failure {
  failed_function : string;
  failed_class : error_class;
  failed_tracing_id : option nat;
}.

(** Everything outside the component object that the embedded code reads
    or writes: the root logger, the tracing context, the health reporter's
    counters and the tracking service's store for this source. *)
Record world : Type := mk_world {
  root_level : Z;                              (* logging.root.level *)
  tracing_ids : list nat;                      (* active ids, innermost first *)
  next_tracing_id : nat;
  consecutive_failures : nat;
  failure_log : list failure_record;           (* newest first *)
  sync_metrics : list bool;                    (* report_sync_metrics calls *)
  stored_watermark : LastSeenValues.t;         (* tracking service *)
  received_payloads : list DagRunsStateData.t; (* tracking service *)
  known_dag_runs : gset Z;                     (* tracking service *)
}.

Definition set_root_level (n : Z) (w : world) : world :=
  mk_world n (tracing_ids w) (next_tracing_id w) (consecutive_failures w)
    (failure_log w) (sync_metrics w) (stored_watermark w)
    (received_payloads w) (known_dag_runs w).

Definition set_tracing (ids : list nat) (next : nat) (w : world) : world :=
  mk_world (root_level w) ids next (consecutive_failures w)
    (failure_log w) (sync_metrics w) (stored_watermark w)
    (received_payloads w) (known_dag_runs w).

Definition set_health (n : nat) (log : list failure_record) (w : world)
  : world :=
  mk_world (root_level w) (tracing_ids w) (next_tracing_id w) n log
    (sync_metrics w) (stored_watermark w) (received_payloads w)
    (known_dag_runs w).

Definition add_sync_metric (b : bool) (w : world) : world :=
  mk_world (root_level w) (tracing_ids w) (next_tracing_id w)
    (consecutive_failures w) (failure_log w) (b :: sync_metrics w)
    (stored_watermark w) (received_payloads w) (known_dag_runs w).

Definition set_tracking (wm : LastSeenValues.t)
    (payloads : list DagRunsStateData.t) (known : gset Z) (w : world)
  : world :=
  mk_world (root_level w) (tracing_ids w) (next_tracing_id w)
    (consecutive_failures w) (failure_log w) (sync_metrics w)
    wm payloads known.

(** The world of a source that has never been synced: the root logger at
    the level [configure_logging] sets, no tracing id, no failure, and the
    watermark [{None, None}]. *)
Definition fresh_world : world :=
  mk_world logging.INFO [] 0 0 [] [] (LastSeenValues.mk PyNone PyNone) [] ∅.

(** A call that may read and write the world and ends in an [outcome]. *)
Definition action (A : Type) : Type := world → world * outcome A.

(** *** The [with] statement *)

Record context_manager : Type := mk_cm {
  enter : action unit;
  exit : option exn → action bool;  (* [True]: the exception is suppressed *)
}.

(** [with cm: body].  [Return (Some v)]: the body executed [return v];
    [Return None]: the body raised, [exit] suppressed it and control falls
    out of the statement.  An exception of [enter] or [exit] propagates. *)
Definition with_ {A} (cm : context_manager) (body : action A)
  : action (option A) := λ w,
  match enter cm w with
  | (w1, Raise e) => (w1, Raise e)
  | (w1, Return _) =>
      match body w1 with
      | (w2, Return v) =>
          match exit cm None w2 with
          | (w3, Return _) => (w3, Return (Some v))
          | (w3, Raise e') => (w3, Raise e')
          end
      | (w2, Raise e) =>
          match exit cm (Some e) w2 with
          | (w3, Return true) => (w3, Return None)
          | (w3, Return false) => (w3, Raise e)
          | (w3, Raise e') => (w3, Raise e')
          end
      end
  end.

(** [with a, b: body] is [with a: with b: body]. *)
Definition with2 {A} (a b : context_manager) (body : action A)
  : action (option A) := λ w,
  match with_ a (with_ b body) w with
  | (w', Return r) => (w', Return (mjoin r))
  | (w', Raise e) => (w', Raise e)
  end.

Module BaseComponent.

Record t : Type := mk {
  class_name : string;             (* self.__class__.__name__ *)
  config : BaseServerConfig.t;
  last_heartbeat : pyval;
}.

(** [__init__]; the collaborator objects are passed to the cycle as
    [collaborators] below. *)
Definition init (class_name : string) (config : BaseServerConfig.t) : t :=
  mk class_name config PyNone.

Definition sleep_interval (self : t) : Z :=
  BaseServerConfig.sync_interval (config self).

Definition set_config (c : BaseServerConfig.t) (self : t) : t :=
  mk (class_name self) c (last_heartbeat self).

(** [__str__] *)
Definition str (self : t) : string :=
  class_name self +:+ "(" +:+ BaseServerConfig.source_name (config self)
    +:+ "|" +:+ BaseServerConfig.uid (config self) +:+ ")".

(** [logging.root.setLevel(level)] *)
Definition setLevel (l : logging.level) : action unit := λ w,
  match logging._checkLevel l with
  | Return n => (set_root_level n w, Return ())
  | Raise e => (w, Raise e)
  end.

(** [refresh_config]: the assignment comes first, so the new config is
    held even when [setLevel] raises. *)
Definition refresh_config (self : t) (new_config : BaseServerConfig.t)
  : world → (t * world) * outcome unit := λ w,
  let self := set_config new_config self in
  let log_level := BaseServerConfig.log_level (config self) in
  match log_level with
  | Some l =>
      if logging.truthy log_level
         && negb (bool_decide (logging.getLevelName l
                               = logging.LevelNo (root_level w)))
      then let '(w', r) := setLevel l w in ((self, w'), r)
      else ((self, w), Return ())
  | None => ((self, w), Return ())
  end.

(** [_sync_once] of the base class. *)
Definition _sync_once : action pyval := λ w, (w, Raise NotImplementedError).

(** [report_sync_metrics]: the base class does nothing; the call itself
    is recorded in the world. *)
Definition report_sync_metrics (self : t) (is_success : bool)
  : action unit := λ w, (add_sync_metric is_success w, Return ()).

End BaseComponent.

(** Modelled from the spec: [new_tracing_id] of [dbnd.utils.trace], which
    the sources at hand import and do not contain.  A correlation id, fresh
    per cycle, is attached on entry and detached on every exit path; an
    exception of the body is not suppressed. *)
Definition new_tracing_id : context_manager := {|
  enter := λ w,
    (set_tracing (next_tracing_id w :: tracing_ids w)
                 (S (next_tracing_id w)) w, Return ());
  exit := λ _ w,
    (set_tracing (tail (tracing_ids w)) (next_tracing_id w) w, Return false);
|}.

(** Modelled from the spec: the classification of the health reporter into
    transient connection, authentication, malformed-response and
    persistence errors; any other class is an internal bug. *)
Definition classify (e : exn) : error_class :=
  match e with
  | TransientIOError | RequestsConnectionError
  | DatabandConnectionException => TransientConnection
  | AuthError => Authentication
  | MalformedResponseError => MalformedResponse
  | PersistenceError => Persistence
  | _ => InternalBug
  end.

(** Modelled from the spec: [capture_component_exception] of
    [airflow_monitor.shared.error_handler], which the sources at hand
    import and do not contain.  On success the consecutive-failure counter
    is reset and [report_sync_metrics(True)] is called; on an exception the
    failure is classified and logged, the counter incremented,
    [report_sync_metrics(False)] called, and the exception is swallowed. *)
Definition capture_component_exception (component : BaseComponent.t)
    (function_name : string) : context_manager := {|
  enter := λ w, (w, Return ());
  exit := λ raised w,
    match raised with
    | None =>
        let w1 := set_health 0 (failure_log w) w in
        let '(w2, _) := BaseComponent.report_sync_metrics component true w1 in
        (w2, Return false)
    | Some e =>
        let record :=
          mk_failure function_name (classify e) (head (tracing_ids w)) in
        let w1 :=
          set_health (S (consecutive_failures w)) (record :: failure_log w) w in
        let '(w2, _) := BaseComponent.report_sync_metrics component false w1 in
        (w2, Return true)
    end;
|}.

(** [BaseComponent.sync_once].  The method of the subclass is the
    parameter [_sync_once]; when the error is swallowed the method falls
    off its end and returns [None]. *)
Definition sync_once (self : BaseComponent.t) (_sync_once : action pyval)
  : action pyval := λ w,
  match with2 new_tracing_id (capture_component_exception self "sync_once")
              _sync_once w with
  | (w', Return (Some v)) => (w', Return v)
  | (w', Return None) => (w', Return PyNone)
  | (w', Raise e) => (w', Raise e)
  end.

(** The world in which the body of [sync_once] starts. *)
Definition entered (w : world) : world := fst (enter new_tracing_id w).

(* ===================================================================== *)
(** ** The sync cycle *)
(* ===================================================================== *)

(** Modelled from the spec: what the data fetcher and the tracking
    service answer during one cycle.  They are external collaborators
    behind the contracts [fetch_dag_runs], [fetch_task_instances] and
    [save_dag_runs_data]; nothing is assumed of them beyond the
    signatures. *)
Record collaborators : Type := mk_collaborators {
  fetch_dag_runs : LastSeenValues.t → outcome AirflowDagRunsResponse.t;
  fetch_task_instances : list Z → outcome (list TaskInstance.t);
  save_acknowledged : DagRunsStateData.t → bool;
}.

Module Syncer.

(** [get_last_seen_values] of the tracking service. *)
Definition get_last_seen_values (w : world) : LastSeenValues.t :=
  stored_watermark w.

Definition is_empty (resp : AirflowDagRunsResponse.t) : bool :=
  bool_decide (AirflowDagRunsResponse.dag_runs resp = []).

(** The watermark a response proposes. *)
Definition proposed_watermark (resp : AirflowDagRunsResponse.t)
  : LastSeenValues.t :=
  LastSeenValues.mk (AirflowDagRunsResponse.last_seen_dag_run_id resp)
                    (AirflowDagRunsResponse.last_seen_log_id resp).

(** The id of a dag run is an integer by the data model. *)
Definition dag_run_id (dr : AirflowDagRun.t) : outcome Z :=
  match Py.int_of (AirflowDagRun.id dr) with
  | Some z => Return z
  | None => Raise MalformedResponseError
  end.

Definition updated (dr : AirflowDagRun.t) : bool :=
  Py.truthy (AirflowDagRun.has_updated_task_instances dr).

Definition references_known (batch : list Z) (known : gset Z)
    (ti : TaskInstance.t) : bool :=
  bool_decide (TaskInstance.dag_run_id ti ∈ batch)
  || bool_decide (TaskInstance.dag_run_id ti ∈ known).

(** Modelled from the spec: step 4 of the cycle.  Task instances are
    fetched for the dag runs flagged [has_updated_task_instances]; a task
    instance that refers to a dag run neither in the batch nor known to
    the tracking service makes the response malformed. *)
Definition reconcile (env : collaborators) (known : gset Z)
    (resp : AirflowDagRunsResponse.t) : outcome DagRunsStateData.t :=
  let runs := AirflowDagRunsResponse.dag_runs resp in
  batch ← comprehension dag_run_id runs;
  wanted ← comprehension dag_run_id (filter (λ dr, updated dr = true) runs);
  tis ← fetch_task_instances env wanted;
  if forallb (references_known batch known) tis
  then Return (DagRunsStateData.mk runs tis)
  else Raise MalformedResponseError.

(** *** Order on watermarks *)

(** A field is absent ([None]) or an integer; absent is below every
    value and integers are compared as such.  A field that is neither is
    not comparable, not even with itself. *)
Definition field_le (a b : pyval) : bool :=
  match a, b with
  | PyNone, (PyNone | PyInt _) => true
  | PyInt x, PyInt y => Z.leb x y
  | _, _ => false
  end.

Definition watermark_le (a b : LastSeenValues.t) : bool :=
  field_le (LastSeenValues.last_seen_dag_run_id a)
           (LastSeenValues.last_seen_dag_run_id b)
  && field_le (LastSeenValues.last_seen_log_id a)
              (LastSeenValues.last_seen_log_id b).

(** Modelled from the spec: steps 1 to 4 of the cycle, which write
    nothing.  [Return None]: the response is empty and the cycle ends;
    [Return (Some (payload, wm))]: [payload] is to be persisted and [wm]
    is the watermark the fetcher proposes.  A response that is to be
    persisted and proposes a watermark lower than the stored one, or one
    whose fields are not absent or integers, is malformed: the cycle
    aborts with [MalformedResponseError] before anything is reconciled. *)
Definition plan (env : collaborators) (w : world)
  : outcome (option (DagRunsStateData.t * LastSeenValues.t)) :=
  resp ← fetch_dag_runs env (get_last_seen_values w);
  if is_empty resp then Return None
  else if watermark_le (get_last_seen_values w) (proposed_watermark resp)
  then
    payload ← reconcile env (known_dag_runs w) resp;
    Return (Some (payload, proposed_watermark resp))
  else Raise MalformedResponseError.

(** The ids a payload makes known to the tracking service. *)
Definition payload_ids (p : DagRunsStateData.t) : gset Z :=
  list_to_set (omap (λ dr, Py.int_of (AirflowDagRun.id dr))
                    (DagRunsStateData.dag_runs p)).

(** Modelled from the spec: step 5 of the cycle.  The payload write is
    attempted first; only when it is acknowledged are the payload
    recorded and the new watermark written.  A write that is not
    acknowledged raises [PersistenceError] and leaves the store as it
    was. *)
Definition persist (env : collaborators) (payload : DagRunsStateData.t)
    (wm : LastSeenValues.t) : action pyval := λ w,
  if save_acknowledged env payload
  then (set_tracking wm (payload :: received_payloads w)
          (payload_ids payload ∪ known_dag_runs w) w, Return PyNone)
  else (w, Raise PersistenceError).

(** Modelled from the spec: the cycle of the Sync Component, the
    [_sync_once] of the Airflow syncer, which is not part of the sources
    at hand. *)
Definition _sync_once (env : collaborators) : action pyval := λ w,
  match plan env w with
  | Raise e => (w, Raise e)
  | Return None => (w, Return PyNone)
  | Return (Some (payload, wm)) => persist env payload wm w
  end.

(** One scheduled cycle of a source, and a sequence of them; each cycle
    meets the collaborators' behaviour of its own time. *)
Definition cycle (self : BaseComponent.t) (env : collaborators)
  : world → world := λ w, fst (sync_once self (_sync_once env) w).

Definition cycles (self : BaseComponent.t) (envs : list collaborators)
  : world → world := λ w, foldl (λ w env, cycle self env w) w envs.

(** A cycle is successful when its [_sync_once] returns. *)
Definition successful (env : collaborators) (w : world) : bool :=
  returns (snd (_sync_once env (entered w))).

(** The fetcher answers every request with an empty response. *)
Definition fetcher_empty (env : collaborators) : Prop :=
  ∀ wm, ∃ resp, fetch_dag_runs env wm = Return resp
                ∧ AirflowDagRunsResponse.dag_runs resp = [].

(** The ways a cycle ends, seen from the tracking service's store:
    [w] is the world before the cycle and [w'] the world after it. *)
Inductive cycle_effect (env : collaborators) (w w' : world) : Prop :=
| effect_failed e :
    plan env w = Raise e →
    stored_watermark w' = stored_watermark w →
    received_payloads w' = received_payloads w →
    cycle_effect env w w'
| effect_empty :
    plan env w = Return None →
    stored_watermark w' = stored_watermark w →
    received_payloads w' = received_payloads w →
    cycle_effect env w w'
| effect_not_acknowledged payload wm :
    plan env w = Return (Some (payload, wm)) →
    save_acknowledged env payload = false →
    stored_watermark w' = stored_watermark w →
    received_payloads w' = received_payloads w →
    cycle_effect env w w'
| effect_persisted payload wm :
    plan env w = Return (Some (payload, wm)) →
    save_acknowledged env payload = true →
    stored_watermark w' = wm →
    received_payloads w' = payload :: received_payloads w →
    cycle_effect env w w'.

End Syncer.

(* ===================================================================== *)
(** ** api_client.py *)
(* ===================================================================== *)

Module requests.

Record Request : Type := mk_request {
  method : string;
  url : string;
  json : pyval;
  headers : gmap string string;
  params : option (gmap string string);
}.

(** What the client observes of a response: [resp.ok],
    [resp.status_code], the raw [resp.content], the result of
    [resp.content.decode("utf-8")], the result of [resp.json()], and the
    cookies the response sets. *)
Record Response : Type := mk_response {
  ok : bool;
  status_code : Z;
  content : string;
  decoded : outcome string;
  parsed : outcome pyval;
  set_cookies : gmap string string;
}.

Record Session : Type := mk_session {
  cookies : gmap string string;
}.

(** The remote side: what the [n]-th request of the client is answered
    with, a response or an exception raised by the transport. *)
Definition network : Type := nat → Request → outcome Response.

(** [requests.session()] *)
Definition session : Session := mk_session ∅.

End requests.

(** The retry policy object handed to [api_request]. *)
Record retry_policy : Type := mk_retry_policy {
  should_retry : Z → option exn → Z → bool;
  seconds_to_sleep : Z → Z;
}.

(** [except requests.ConnectionError] *)
Definition is_connection_error (e : exn) : bool :=
  match e with RequestsConnectionError => true | _ => false end.

(** [except (DatabandConnectionException, DatabandApiError)] *)
Definition is_databand_error (e : exn) : bool :=
  match e with
  | DatabandConnectionException | DatabandApiError _ _ _ _ => true
  | _ => false
  end.

Module ApiClient.
Section Client.

(** [urljoin] of the standard library, [api_connection_refused] of
    [dbnd._core.errors.friendly_error.api] and [LinearRetryPolicy] of
    [dbnd._core.utils.http.retry_policy] are imported, not defined in the
    sources at hand; they are taken as they come.  [net] is the remote
    side. *)
Variable urljoin : string → string → string.
Variable api_connection_refused : string → exn → exn.
Variable LinearRetryPolicy : Z → Z → retry_policy.
Variable net : requests.network.

(** [LinearRetryPolicy(0, 1)  # single chance]: what the call site says of
    its default policy, that a first failed attempt is not retried. *)
Definition single_chance : Prop :=
  should_retry (LinearRetryPolicy 0 1) 500 None 1 = false.

Record t : Type := mk {
  _api_base_url : string;
  is_auth_required : bool;
  credentials : option (gmap string string);
  session : option requests.Session;
  default_headers : gmap string string;
}.

Definition api_prefix : string := "/api/v1/".

(** [bool(credentials)] *)
Definition has_credentials (c : option (gmap string string)) : bool :=
  match c with
  | Some m => negb (bool_decide (m = ∅))
  | None => false
  end.

(** [__init__] *)
Definition init (api_base_url : string)
    (credentials : option (gmap string string)) : t :=
  mk api_base_url (has_credentials credentials) credentials None
     {[ "Accept" := "application/json" ]}.

Definition set_is_auth_required (b : bool) (self : t) : t :=
  mk (_api_base_url self) b (credentials self) (session self)
     (default_headers self).

Definition set_session (s : option requests.Session) (self : t) : t :=
  mk (_api_base_url self) (is_auth_required self) (credentials self) s
     (default_headers self).

Definition set_header (k v : string) (self : t) : t :=
  mk (_api_base_url self) (is_auth_required self) (credentials self)
     (session self) (<[k := v]> (default_headers self)).

(** The client object together with the requests sent so far, newest
    first. *)
Definition state : Type := t * list requests.Request.

(** A call that may exhaust its fuel ([None]). *)
Definition call (A : Type) : Type := state → option (state * outcome A).

(** [self.session.request(...)] and [self.session.get(...)]: the request
    is sent, and a response leaves its cookies in the session. *)
Definition session_request (req : requests.Request)
  : state → state * outcome requests.Response := λ '(self, sent),
  match session self with
  | None => ((self, sent), Raise AttributeError)
  | Some s =>
      match net (length sent) req with
      | Return resp =>
          let s' := requests.mk_session
                      (requests.set_cookies resp ∪ requests.cookies s) in
          ((set_session (Some s') self, req :: sent), Return resp)
      | Raise e => ((self, req :: sent), Raise e)
      end
  end.

Definition json_of_credentials (c : gmap string string) : pyval :=
  PyDict (PyStr <$> c).

Section Methods.

(** [self.api_request(endpoint, method=..., data=...)] as
    [_init_session] calls it, the other arguments at their defaults. *)
Variable api_request_rec : string → pyval → string → call pyval.

(** The body of the [try] in [_init_session]. *)
Definition _init_session_try (credentials : option (gmap string string))
  : call unit := λ '(self, sent),
  let self := set_session (Some requests.session) self in
  if negb (is_auth_required self) then Some ((self, sent), Return ())
  else
    match credentials with
    | None => Some ((self, sent), Raise AttributeError)
    | Some creds =>
        let token := default "" (creds !! "token") in
        if negb (String.eqb token "") then
          Some ((set_header "Authorization" ("Bearer " +:+ token) self, sent),
                Return ())
        else
          let get_app :=
            requests.mk_request "GET" (urljoin (_api_base_url self) "/app")
                                PyNone ∅ None in
          match session_request get_app (self, sent) with
          | (st, Raise e) => Some (st, Raise e)
          | ((self, sent), Return _) =>
              let csrf_token :=
                default "" (s ← session self;
                            requests.cookies s !! "dbnd_csrftoken") in
              let self :=
                if negb (String.eqb csrf_token "")
                then set_header "X-CSRFToken" csrf_token self
                else self in
              if bool_decide (is_Some (creds !! "username"))
                 && bool_decide (is_Some (creds !! "password"))
              then
                match api_request_rec "auth/login"
                        (json_of_credentials creds) "POST" (self, sent) with
                | None => None
                | Some (st, Return _) => Some (st, Return ())
                | Some (st, Raise e) => Some (st, Raise e)
                end
              else Some ((self, sent), Return ())
          end
    end.

(** [_init_session]: any exception clears the session and is raised
    again. *)
Definition _init_session (credentials : option (gmap string string))
  : call unit := λ st,
  match _init_session_try credentials st with
  | None => None
  | Some (st', Return _) => Some (st', Return ())
  | Some ((self, sent), Raise e) =>
      Some ((set_session None self, sent), Raise e)
  end.

Definition _request (endpoint method : string) (data : pyval)
    (headers : option (gmap string string))
    (query : option (gmap string string)) : call pyval := λ st,
  match (if session (fst st) is None
         then _init_session (credentials (fst st)) st
         else Some (st, Return ())) with
  | None => None
  | Some (st, Raise e) => Some (st, Raise e)
  | Some (st, Return _) =>
      let headers := default ∅ headers ∪ default_headers (fst st) in
      let url := urljoin (_api_base_url (fst st)) endpoint in
      match session_request
              (requests.mk_request method url data headers query) st with
      | ((self, sent), Raise e) =>
          if is_connection_error e
          then Some ((set_session None self, sent), Raise e)
          else Some ((self, sent), Raise e)
      | (st, Return resp) =>
          if negb (requests.ok resp) then
            match requests.decoded resp with
            | Return body =>
                Some (st, Raise (DatabandApiError method url
                                   (requests.status_code resp) body))
            | Raise e => Some (st, Raise e)
            end
          else if negb (String.eqb (requests.content resp) "") then
            match requests.parsed resp with
            | Return v => Some (st, Return v)
            | Raise _ => Some (st, Return PyNone)
            end
          else Some (st, Return PyNone)
      end
  end.

End Methods.

Definition failure_handler_t : Type :=
  exn → retry_policy → Z → outcome unit.

(** [api_request] and the iterations of its [while True] loop; [attempts]
    is entered with [retry_number] already incremented.  Fuel bounds the
    retries and the nested login call. *)
Fixpoint api_request (fuel : nat) (endpoint : string) (data : pyval)
    (method : string) (headers query : option (gmap string string))
    (no_prefix : bool) (policy : option retry_policy)
    (failure_handler : option failure_handler_t) : call pyval :=
  match fuel with
  | O => λ _, None
  | S fuel =>
      let policy := default (LinearRetryPolicy 0 1) policy in
      let url := if no_prefix then endpoint else urljoin api_prefix endpoint in
      attempts fuel url data method headers query policy failure_handler 1
  end
with attempts (fuel : nat) (url : string) (data : pyval) (method : string)
    (headers query : option (gmap string string)) (policy : retry_policy)
    (failure_handler : option failure_handler_t) (retry_number : Z)
    : call pyval :=
  match fuel with
  | O => λ _, None
  | S fuel => λ st,
      let login := λ endpoint data method,
        api_request fuel endpoint data method None None false None None in
      match _request login url method data headers query st with
      | None => None
      | Some (st, Return resp) => Some (st, Return resp)
      | Some (st, Raise ex) =>
          if is_connection_error ex then
            match (match failure_handler with
                   | Some handler => handler ex policy retry_number
                   | None => Return ()
                   end) with
            | Raise e => Some (st, Raise e)
            | Return _ =>
                if should_retry policy 500 None retry_number
                then attempts fuel url data method headers query policy
                              failure_handler (retry_number + 1) st
                else Some (st, Raise (api_connection_refused
                                        (_api_base_url (fst st) +:+ url) ex))
            end
          else Some (st, Raise ex)
      end
  end.

(** [is_ready]: the [try] body, the [except] clause and the [finally]
    clause, in this order. *)
Definition is_ready (fuel : nat) : call bool := λ '(self, sent),
  let is_auth_required := is_auth_required self in
  let self := set_is_auth_required false self in
  match api_request fuel "auth/ping" PyNone "GET" None None false None None
                    (self, sent) with
  | None => None
  | Some ((self, sent), r) =>
      let result :=
        match r with
        | Return _ => Return true
        | Raise e => if is_databand_error e then Return false else Raise e
        end in
      Some ((set_is_auth_required is_auth_required self, sent), result)
  end.

(** The request [is_ready] sends and the answer it meets. *)
Definition ping_request (self : t) : requests.Request :=
  requests.mk_request "GET"
    (urljoin (_api_base_url self) (urljoin api_prefix "auth/ping"))
    PyNone (default_headers self) None.

Definition ping_answer (st : state) : outcome requests.Response :=
  net (length (snd st)) (ping_request (fst st)).

End Client.
End ApiClient.

(* ===================================================================== *)
(** ** airflow_data.py: the bulk envelopes *)
(* ===================================================================== *)

(** The two bulk envelopes as the source has them, with untyped fields.
    The comprehension [[x for x in v]] copies the elements of an iterable
    into a new list; for a mapping the keys come in the order of the
    [gmap], which the properties below do not depend on. *)
Module airflow_data.

(** [[x for x in v]] *)
Definition copy_elements (v : pyval) : outcome pyval :=
  elements ← Py.iter v;
  Return (PyList elements).

Module DagRunsFullData.

Record t : Type := mk {
  dags : pyval;
  dag_runs : pyval;
  task_instances : pyval;
}.

Definition as_dict (self : t) : gmap string pyval :=
  <["dags" := dags self]>
    (<["dag_runs" := dag_runs self]>
       (<["task_instances" := task_instances self]> ∅)).

Definition from_dict (data : gmap string pyval) : outcome t :=
  dags ← copy_elements (Py.dict_get data "dags");
  dag_runs ← copy_elements (Py.dict_get data "dag_runs");
  task_instances ← copy_elements (Py.dict_get data "task_instances");
  Return (mk dags dag_runs task_instances).

End DagRunsFullData.

Module DagRunsStateData.

Record t : Type := mk {
  dag_runs : pyval;
  task_instances : pyval;
}.

Definition as_dict (self : t) : gmap string pyval :=
  <["task_instances" := task_instances self]>
    (<["dag_runs" := dag_runs self]> ∅).

(** The keyword arguments are evaluated in the order they are written:
    [task_instances] first. *)
Definition from_dict (data : gmap string pyval) : outcome t :=
  task_instances ← copy_elements (Py.dict_get data "task_instances");
  dag_runs ← copy_elements (Py.dict_get data "dag_runs");
  Return (mk dag_runs task_instances).

End DagRunsStateData.

End airflow_data.

(** No login is due before the next request: the client holds a session,
    or authentication is not required. *)
Definition no_login_due (self : ApiClient.t) : Prop :=
  is_Some (ApiClient.session self) ∨ ApiClient.is_auth_required self = false.

(** The session the next request of such a client is sent on. *)
Definition session_in_use (self : ApiClient.t) : requests.Session :=
  default requests.session (ApiClient.session self).

(** The request [_request] builds: the endpoint joined to the base url and
    the per-call headers laid over the client's default headers. *)
Definition built_request (urljoin : string → string → string)
    (self : ApiClient.t) (endpoint method : string) (data : pyval)
    (headers query : option (gmap string string)) : requests.Request :=
  requests.mk_request method
    (urljoin (ApiClient._api_base_url self) endpoint) data
    (default ∅ headers ∪ ApiClient.default_headers self) query.

(** The url [api_request] hands to [_request]: the endpoint as it is, or
    joined to the api prefix. *)
Definition prefixed (urljoin : string → string → string) (no_prefix : bool)
    (endpoint : string) : string :=
  if no_prefix then endpoint else urljoin ApiClient.api_prefix endpoint.

(** Stand-ins for the imported helpers and a few answers of the remote
    side, for the examples that follow the properties. *)
Module sample.

Definition urljoin (base url : string) : string := base +:+ url.

Definition refused (_ : string) (_ : exn) : exn :=
  DatabandConnectionException.

Definition linear (seconds max_retries : Z) : retry_policy :=
  mk_retry_policy (λ _ _ retry_number, Z.ltb retry_number max_retries)
                  (λ _, seconds).

Definition ok_response : requests.Response :=
  requests.mk_response true 200 "{}" (Return "{}") (Return (PyDict ∅)) ∅.

Definition busy_response : requests.Response :=
  requests.mk_response false 503 "busy" (Return "busy") (Raise ValueError) ∅.

Definition csrf_response : requests.Response :=
  requests.mk_response true 200 "" (Return "") (Raise ValueError)
    {[ "dbnd_csrftoken" := "c5rf" ]}.

Definition always (answer : outcome requests.Response) : requests.network :=
  λ _ _, answer.

(** A client that needs no login. *)
Definition client : ApiClient.t := ApiClient.init "http://localhost:8080" None.

End sample.

(** [dict_dump] of api_client.py.  [dump] stands for
    [value_schema.dump(value).data], which returns the dumped value or
    raises.  The items are visited in the order of the [gmap]; which of
    several failing values raises first is therefore not the order of the
    Python dict. *)
Definition dict_dump (dump : pyval → outcome pyval)
    (obj_dict : gmap string pyval) : outcome (gmap string pyval) :=
  items ← comprehension
             (λ item : string * pyval,
                dumped ← dump (snd item); Return (fst item, dumped))
             (map_to_list obj_dict);
  Return (list_to_map items).

(* ===================================================================== *)
(** ** logger_config.py *)
(* ===================================================================== *)

Module logger_config.

Inductive formatter : Type :=
| JsonFormatter
| Formatter (fmt : string).

#[global] Instance formatter_eq_dec : EqDecision formatter.
Proof. solve_decision. Defined.

(** [logging.StreamHandler(stream=sys.stdout)] with its formatter.  A
    handler is kept as its stream and formatter; the identity of the
    object is not modelled. *)
Record handler : Type := StreamHandler {
  stream : string;
  handler_formatter : option formatter;
}.

#[global] Instance handler_eq_dec : EqDecision handler.
Proof. solve_decision. Defined.

Definition setFormatter (f : formatter) (h : handler) : handler :=
  StreamHandler (stream h) (Some f).

(** The process state [configure_logging] touches: the root logger's
    handlers and level, and the environment. *)
Record process : Type := mk_process {
  root_handlers : list handler;
  root_logger_level : Z;
  environ : gmap string string;
}.

(** [os.environ.setdefault(key, value)] *)
Definition setdefault (key value : string) (env : gmap string string)
  : gmap string string :=
  match env !! key with
  | Some _ => env
  | None => <[key := value]> env
  end.

(** [Logger.addHandler]: a handler already attached is not added again. *)
Definition addHandler (h : handler) (handlers : list handler)
  : list handler :=
  if bool_decide (h ∈ handlers) then handlers else handlers ++ [h].

Definition plain_format : string :=
  "[%(asctime)s] %(levelname)s %(name)s %(process)s %(threadName)s : %(message)s".

(** [configure_logging].  [json_formatter_imported] tells whether the
    import of [JsonFormatter] at the head of the module succeeded. *)
Definition configure_logging (json_formatter_imported : bool)
    (use_json : bool) (p : process) : process :=
  let formatter :=
    if use_json && json_formatter_imported then JsonFormatter
    else Formatter plain_format in
  let log_handler := setFormatter formatter (StreamHandler "sys.stdout" None) in
  let handlers := [] in
  let env := setdefault "DBND__LOG__DISABLED" "true" (environ p) in
  mk_process (addHandler log_handler handlers) logging.INFO env.

End logger_config.

(* ===================================================================== *)
(** ** dbnd_aws/env.py *)
(* ===================================================================== *)

Module AwsEnvConfig.

(** What [prepare_env] reads of the credentials the boto session gives:
    each key is [None] or a string. *)
Record credentials : Type := mk_credentials {
  access_key : option string;
  secret_key : option string;
}.

(** Truth value of an optional string in a condition. *)
Definition truthy (o : option string) : bool :=
  match o with
  | Some s => negb (String.eqb s "")
  | None => false
  end.

Definition access_key_env : string := "AWS_ACCESS_KEY_ID".
Definition secret_key_env : string := "AWS_SECRET_ACCESS_KEY".

(** [prepare_env], on the credentials of [get_boto_session()] and
    [os.environ]. *)
Definition prepare_env (creds : credentials) (environ : gmap string string)
  : gmap string string :=
  if truthy (access_key creds)
     && truthy (secret_key creds)
     && negb (bool_decide (is_Some (environ !! access_key_env)))
     && negb (bool_decide (is_Some (environ !! secret_key_env)))
  then
    <[secret_key_env := default "" (secret_key creds)]>
      (<[access_key_env := default "" (access_key creds)]> environ)
  else environ.

End AwsEnvConfig.

(* ===================================================================== *)
(** ** dbnd_spark/local/local_spark.py *)
(* ===================================================================== *)

Module LocalSparkExecutionCtrl.

(** The character class [[0-9+]]. *)
Definition in_class (c : Ascii.ascii) : bool :=
  (Nat.leb 48 (Ascii.nat_of_ascii c) && Nat.leb (Ascii.nat_of_ascii c) 57)
  || Nat.eqb (Ascii.nat_of_ascii c) 43.

(** [.]: any character but the newline. *)
Definition any_char (c : Ascii.ascii) : bool :=
  negb (Nat.eqb (Ascii.nat_of_ascii c) 10).

(** The rest of [s] after the prefix [p], when [s] starts with [p]. *)
Fixpoint strip_prefix (p s : string) : option string :=
  match p, s with
  | EmptyString, _ => Some s
  | String a p', String b s' =>
      if Ascii.eqb a b then strip_prefix p' s' else None
  | String _ _, EmptyString => None
  end.

(** A match of ["Error code is: ([0-9+])."] that starts at the head of
    [s]: the captured group. *)
Definition match_here (s : string) : option string :=
  match strip_prefix "Error code is: " s with
  | Some (String d (String x _)) =>
      if in_class d && any_char x then Some (String d EmptyString) else None
  | _ => None
  end.

(** [re.search]: the match at the leftmost position that has one. *)
Fixpoint search (s : string) : option string :=
  match match_here s with
  | Some group => Some group
  | None =>
      match s with
      | EmptyString => None
      | String _ rest => search rest
      end
  end.

(** [_get_spark_return_code_from_exception], on [str(exception)]. *)
Definition _get_spark_return_code_from_exception (message : string)
  : string :=
  match search message with
  | Some group => group
  | None => "0"
  end.

End LocalSparkExecutionCtrl.

(* ===================================================================== *)
(** ** dbnd_airflow/executors/kubernetes_executor.py *)
(* ===================================================================== *)

Module DbndKubernetesScheduler.

(** The scheduler's [running_pods] and [namespace], and the calls of
    [kube_dbnd.delete_pod] made so far, newest first. *)
Record t : Type := mk {
  running_pods : gmap string string;
  namespace : string;
  kube_deletes : list (string * string);
}.

Section Scheduler.

(** [kube_dbnd.delete_pod(pod_id, namespace)] returns or raises; the base
    class's [terminate] is taken as it comes. *)
Variable kube_delete_pod : string → string → outcome unit.
Variable base_terminate : t → t * outcome unit.

(** [delete_pod]: the pod is forgotten first, known or not, and then
    deleted in the cluster. *)
Definition delete_pod (pod_id : string) (self : t) : t * outcome unit :=
  (mk (delete pod_id (running_pods self)) (namespace self)
      ((pod_id, namespace self) :: kube_deletes self),
   kube_delete_pod pod_id (namespace self)).

(** The loop of [terminate] over [list(self.running_pods.keys())]: an
    exception of [delete_pod] is logged and the loop goes on. *)
Fixpoint delete_all (pod_names : list string) (self : t) : t :=
  match pod_names with
  | [] => self
  | pod_name :: rest => delete_all rest (fst (delete_pod pod_name self))
  end.

(** [terminate]; the keys are visited in the order of the [gmap], not in
    the order the pods were submitted. *)
Definition terminate (self : t) : t * outcome unit :=
  base_terminate
    (delete_all (fst <$> map_to_list (running_pods self)) self).

End Scheduler.

End DbndKubernetesScheduler.

Module DbndKubernetesJobWatcher.

(** What [_run] reads of an event of the watch stream: [event["type"]]
    and, of [event["object"]], the pod's name, labels and resource
    version. *)
Record event : Type := mk_event {
  event_type : string;
  pod_name : string;
  pod_labels : gmap string string;
  pod_resource_version : pyval;
}.

(** An entry of [watcher_queue]: pod id, state, labels, resource
    version. *)
Definition queue_entry : Type :=
  string * option string * gmap string string * pyval.

(** [State.FAILED] of airflow. *)
Definition State_FAILED : string := "failed".

Definition is_status (status : pyval) (name : string) : bool :=
  match status with
  | PyStr s => String.eqb s name
  | _ => false
  end.

(** [process_status_quite]: [put] appends at the tail of the queue; a
    pending, running or unknown status puts nothing. *)
Definition process_status_quite (pod_id : string) (status : pyval)
    (labels : gmap string string) (resource_version : pyval)
    (watcher_queue : list queue_entry) : list queue_entry :=
  if is_status status "Pending" then watcher_queue
  else if is_status status "Failed" then
    watcher_queue ++ [(pod_id, Some State_FAILED, labels, resource_version)]
  else if is_status status "Succeeded" then
    watcher_queue ++ [(pod_id, None, labels, resource_version)]
  else if is_status status "Running" then watcher_queue
  else watcher_queue.

(** The keyword arguments [_run] hands to the watch stream. *)
Definition stream_kwargs (worker_uuid : string) (resource_version : pyval)
    (kube_client_request_args : option (gmap string pyval))
  : gmap string pyval :=
  let kwargs : gmap string pyval :=
    {[ "label_selector" := PyStr ("airflow-worker=" +:+ worker_uuid) ]} in
  let kwargs :=
    if Py.truthy resource_version
    then <["resource_version" := resource_version]> kwargs
    else kwargs in
  match kube_client_request_args with
  | Some args => if bool_decide (args = ∅) then kwargs else args ∪ kwargs
  | None => kwargs
  end.

Section Watcher.

(** [kube_dbnd.process_pod_event] and the base class's [process_error]
    are taken as they come. *)
Variable process_pod_event : event → outcome pyval.
Variable process_error : event → outcome pyval.

(** The [for] loop of [_run] over the events of the stream. *)
Fixpoint watch (events : list event) (last_resource_version : pyval)
    (watcher_queue : list queue_entry)
  : list queue_entry * outcome pyval :=
  match events with
  | [] => (watcher_queue, Return last_resource_version)
  | ev :: rest =>
      if String.eqb (event_type ev) "ERROR"
      then (watcher_queue, process_error ev)
      else
        match process_pod_event ev with
        | Raise e => (watcher_queue, Raise e)
        | Return status =>
            watch rest (pod_resource_version ev)
              (process_status_quite (pod_name ev) status (pod_labels ev)
                 (pod_resource_version ev) watcher_queue)
        end
  end.

(** [_run], on the events the stream yields for the watcher's namespace
    and its keyword arguments. *)
Definition _run (stream : string → gmap string pyval → list event)
    (namespace : string)
    (resource_version : pyval) (worker_uuid : string)
    (kube_client_request_args : option (gmap string pyval))
    (watcher_queue : list queue_entry)
  : list queue_entry * outcome pyval :=
  watch (stream namespace
           (stream_kwargs worker_uuid resource_version
              kube_client_request_args))
        PyNone watcher_queue.

End Watcher.

End DbndKubernetesJobWatcher.

(** Sample pods and collaborators of the job watcher, for the concrete
    runs below. *)
Module sample_watch.

Definition pod (type name version : string)
  : DbndKubernetesJobWatcher.event :=
  DbndKubernetesJobWatcher.mk_event type name
    {[ "dag_id" := name ]} (PyStr version).

(** The status is read off the pod's name. *)
Definition process_pod_event (ev : DbndKubernetesJobWatcher.event)
  : outcome pyval :=
  Return (PyStr
    (if String.eqb (DbndKubernetesJobWatcher.pod_name ev) "extract"
     then "Failed"
     else if String.eqb (DbndKubernetesJobWatcher.pod_name ev) "load"
     then "Succeeded"
     else "Running")).

Definition process_error (_ : DbndKubernetesJobWatcher.event)
  : outcome pyval :=
  Return (PyStr "0").

End sample_watch.

(* ===================================================================== *)
(** * Properties *)
(* ===================================================================== *)

(** ** Watermark serialisation *)

Section Watermark.

Import LastSeenValues.

Lemma dict_get_insert_eq (d : gmap string pyval) k v :
  Py.dict_get (<[k := v]> d) k = v.
Proof. unfold Py.dict_get. by rewrite lookup_insert_eq. Qed.

Lemma dict_get_insert_ne (d : gmap string pyval) k k' v :
  k ≠ k' → Py.dict_get (<[k := v]> d) k' = Py.dict_get d k'.
Proof. intros Hne. unfold Py.dict_get. by rewrite lookup_insert_ne. Qed.

Lemma dict_get_delete_ne (d : gmap string pyval) k k' :
  k ≠ k' → Py.dict_get (delete k d) k' = Py.dict_get d k'.
Proof. intros Hne. unfold Py.dict_get. by rewrite lookup_delete_ne. Qed.

(** The round trip holds for whatever the two fields hold. *)
Lemma from_dict_as_dict (wm : t) : from_dict (as_dict wm) = wm.
Proof.
  destruct wm as [a b]. unfold from_dict, as_dict.
  cbn [last_seen_dag_run_id last_seen_log_id].
  rewrite dict_get_insert_eq.
  rewrite dict_get_insert_ne by done.
  by rewrite dict_get_insert_eq.
Qed.

(** The mapping [as_dict] builds has exactly the two keys. *)
Lemma as_dict_dom (wm : t) :
  dom (as_dict wm) = {[ "last_seen_dag_run_id"; "last_seen_log_id" ]}.
Proof. unfold as_dict. rewrite !dom_insert_L, dom_empty_L. set_solver. Qed.

End Watermark.

(** C4.  Serialising a watermark with [as_dict] and reading it back with
    [from_dict] gives the watermark again, for every combination of an
    integer or [None] in the two fields. *)
Theorem watermark_roundtrip (a b : option Z) :
  LastSeenValues.from_dict
    (LastSeenValues.as_dict
       (LastSeenValues.mk (Py.optional_int a) (Py.optional_int b)))
  = LastSeenValues.mk (Py.optional_int a) (Py.optional_int b).
Proof. apply from_dict_as_dict. Qed.

(** C5.  [from_dict] sets each watermark field to the value its key is
    bound to in the mapping and to [None], which is not [0], when the key
    is missing; binding or removing any other key changes nothing. *)
Theorem from_dict_missing_is_none (d : gmap string pyval) :
  (∀ v, d !! "last_seen_dag_run_id" = Some v →
        LastSeenValues.last_seen_dag_run_id (LastSeenValues.from_dict d) = v)
  ∧ (∀ v, d !! "last_seen_log_id" = Some v →
          LastSeenValues.last_seen_log_id (LastSeenValues.from_dict d) = v)
  ∧ (d !! "last_seen_dag_run_id" = None →
       LastSeenValues.last_seen_dag_run_id (LastSeenValues.from_dict d) = PyNone
       ∧ LastSeenValues.last_seen_dag_run_id (LastSeenValues.from_dict d)
           ≠ PyInt 0)
  ∧ (d !! "last_seen_log_id" = None →
       LastSeenValues.last_seen_log_id (LastSeenValues.from_dict d) = PyNone
       ∧ LastSeenValues.last_seen_log_id (LastSeenValues.from_dict d)
           ≠ PyInt 0)
  ∧ (∀ k v, k ≠ "last_seen_dag_run_id" → k ≠ "last_seen_log_id" →
        LastSeenValues.from_dict (<[k := v]> d) = LastSeenValues.from_dict d
        ∧ LastSeenValues.from_dict (delete k d) = LastSeenValues.from_dict d).
Proof.
  unfold LastSeenValues.from_dict, Py.dict_get; cbn.
  split; [by intros v -> |].
  split; [by intros v -> |].
  split; [by intros -> |].
  split; [by intros -> |].
  intros k v Hrun Hlog.
  by rewrite !lookup_insert_ne, !lookup_delete_ne.
Qed.

Lemma from_dict_missing_is_none_witness :
  let d : gmap string pyval :=
    {[ "last_seen_log_id" := PyInt 7; "source" := PyStr "airflow" ]} in
  LastSeenValues.from_dict d = LastSeenValues.mk PyNone (PyInt 7)
  ∧ LastSeenValues.from_dict (delete "source" d) = LastSeenValues.from_dict d.
Proof.
  intros d.
  destruct (from_dict_missing_is_none d) as (_ & Hlog & Hrun & _ & Hextra).
  split.
  - destruct (Hrun eq_refl) as [Hnone _].
    pose proof (Hlog (PyInt 7) eq_refl) as Hseven.
    destruct (LastSeenValues.from_dict d) as [x y]; cbn in *. by subst.
  - by apply (Hextra "source" PyNone).
Defined.

(** ** Fetch envelope *)

Section Envelope.

Import AirflowDagRunsResponse.

Lemma comprehension_fmap {A B} (f : A → outcome B) (g : A → B) xs :
  (∀ x, x ∈ xs → f x = Return (g x)) →
  comprehension f xs = Return (g <$> xs).
Proof.
  induction xs as [|x xs IH]; intros Hf; [done|].
  cbn. rewrite (Hf x) by left. cbn.
  rewrite IH; [done|]. intros y Hy. apply Hf. by right.
Qed.

Lemma comprehension_returns {A B} (f : A → outcome B) xs ys :
  comprehension f xs = Return ys →
  Forall2 (λ x y, f x = Return y) xs ys.
Proof.
  revert ys. induction xs as [|x xs IH]; intros ys; cbn.
  - intros [= <-]. constructor.
  - destruct (f x) as [y|e] eqn:Hx; cbn; [|done].
    destruct (comprehension f xs) as [ys'|e] eqn:Hxs; cbn; [|done].
    intros [= <-]. constructor; [done|]. by apply IH.
Qed.

Lemma dag_run_of_mapping (m : gmap string pyval) :
  dag_run_of (PyDict m)
  = Return (AirflowDagRun.mk
              (Py.dict_get m "id") (Py.dict_get m "dag_id")
              (Py.dict_get m "execution_date") (Py.dict_get m "state")
              (Py.dict_get m "is_paused")
              (Py.dict_get m "has_updated_task_instances")
              (Py.dict_get m "max_log_id") PyNone).
Proof. reflexivity. Qed.

Lemma dag_run_of_returns dr r :
  dag_run_of dr = Return r → Py.is_mapping dr.
Proof. by destruct dr. Qed.

Lemma iter_returns v elems : Py.iter v = Return elems → Py.iterable v.
Proof. by destruct v. Qed.

End Envelope.

(** C6, as the code has it.  When ["new_dag_runs"] holds a list of dag-run
    mappings and both watermark keys are present, [from_dict] returns a
    response with one [AirflowDagRun] per list element, in order, whose
    [id], [dag_id], [execution_date], [state], [is_paused],
    [has_updated_task_instances] and [max_log_id] are read from the keys of
    that element, whose [events] is [None], and whose watermark fields are
    the top-level values. *)
Theorem envelope_from_dict (data : gmap string pyval)
    (elems : list (gmap string pyval)) (a b : pyval) :
  data !! "new_dag_runs" = Some (PyList (PyDict <$> elems)) →
  data !! "last_seen_dag_run_id" = Some a →
  data !! "last_seen_log_id" = Some b →
  ∃ r, AirflowDagRunsResponse.from_dict data = Return r
       ∧ length (AirflowDagRunsResponse.dag_runs r) = length elems
       ∧ (∀ i m, elems !! i = Some m →
            ∃ dr, AirflowDagRunsResponse.dag_runs r !! i = Some dr
                  ∧ AirflowDagRun.id dr = Py.dict_get m "id"
                  ∧ AirflowDagRun.dag_id dr = Py.dict_get m "dag_id"
                  ∧ AirflowDagRun.execution_date dr
                    = Py.dict_get m "execution_date"
                  ∧ AirflowDagRun.state dr = Py.dict_get m "state"
                  ∧ AirflowDagRun.is_paused dr = Py.dict_get m "is_paused"
                  ∧ AirflowDagRun.has_updated_task_instances dr
                    = Py.dict_get m "has_updated_task_instances"
                  ∧ AirflowDagRun.max_log_id dr = Py.dict_get m "max_log_id"
                  ∧ AirflowDagRun.events dr = PyNone)
       ∧ AirflowDagRunsResponse.last_seen_dag_run_id r = a
       ∧ AirflowDagRunsResponse.last_seen_log_id r = b.
Proof.
  intros Hruns Ha Hb.
  unfold AirflowDagRunsResponse.from_dict, Py.dict_get.
  rewrite Hruns, Ha, Hb. cbn.
  rewrite (comprehension_fmap _
             (λ v, match v with
                   | PyDict m =>
                       AirflowDagRun.mk
                         (Py.dict_get m "id") (Py.dict_get m "dag_id")
                         (Py.dict_get m "execution_date")
                         (Py.dict_get m "state") (Py.dict_get m "is_paused")
                         (Py.dict_get m "has_updated_task_instances")
                         (Py.dict_get m "max_log_id") PyNone
                   | _ => AirflowDagRun.mk PyNone PyNone PyNone PyNone PyNone
                            PyNone PyNone PyNone
                   end)).
  - cbn. eexists. split; [reflexivity|]. cbn.
    split; [by rewrite !length_fmap|].
    split; [|done].
    intros i m Hi. eexists. split.
    + rewrite !list_lookup_fmap, Hi. reflexivity.
    + by cbn.
  - intros x Hx. apply list_elem_of_fmap in Hx as (m & -> & _).
    apply dag_run_of_mapping.
Qed.

Lemma envelope_from_dict_witness :
  let elem : gmap string pyval :=
    {[ "id" := PyInt 11; "dag_id" := PyStr "etl"; "max_log_id" := PyInt 105;
       "has_updated_task_instances" := PyBool true ]} in
  let data : gmap string pyval :=
    {[ "new_dag_runs" := PyList [PyDict elem];
       "last_seen_dag_run_id" := PyInt 11; "last_seen_log_id" := PyInt 105 ]} in
  ∃ r, AirflowDagRunsResponse.from_dict data = Return r
       ∧ length (AirflowDagRunsResponse.dag_runs r) = 1%nat
       ∧ AirflowDagRunsResponse.last_seen_dag_run_id r = PyInt 11
       ∧ AirflowDagRunsResponse.last_seen_log_id r = PyInt 105.
Proof.
  intros elem data.
  destruct (envelope_from_dict data [elem] (PyInt 11) (PyInt 105))
    as (r & Hr & Hlen & _ & Hrun & Hlog); [reflexivity..|].
  exists r. by repeat split.
Defined.

(** C6, the claim as stated, fails on [events]: an element that binds
    ["events"] is parsed into a dag run whose [events] is [None]. *)
Lemma envelope_from_dict_ignores_events :
  let elem : gmap string pyval :=
    {[ "id" := PyInt 11; "events" := PyStr "paused" ]} in
  let data : gmap string pyval :=
    {[ "new_dag_runs" := PyList [PyDict elem];
       "last_seen_dag_run_id" := PyInt 11; "last_seen_log_id" := PyInt 105 ]} in
  ∃ r dr, AirflowDagRunsResponse.from_dict data = Return r
          ∧ AirflowDagRunsResponse.dag_runs r = [dr]
          ∧ Py.dict_get elem "events" = PyStr "paused"
          ∧ AirflowDagRun.events dr ≠ Py.dict_get elem "events".
Proof.
  intros elem data. eexists _, _.
  split; [vm_compute; reflexivity|].
  split; [reflexivity|].
  split; [reflexivity|]. vm_compute. discriminate.
Qed.

(** C9.  A mapping without ["new_dag_runs"], or one that binds it to
    [None], makes [from_dict] raise [TypeError]: no response, and in
    particular none with an empty [dag_runs], is returned.  Conversely,
    whenever [from_dict] returns, the key is bound to an iterable value
    whose elements are all mappings. *)
Theorem envelope_from_dict_partial (data : gmap string pyval) :
  (data !! "new_dag_runs" = None ∨ data !! "new_dag_runs" = Some PyNone →
     AirflowDagRunsResponse.from_dict data = Raise TypeError
     ∧ ∀ r, AirflowDagRunsResponse.from_dict data ≠ Return r)
  ∧ (∀ r, AirflowDagRunsResponse.from_dict data = Return r →
       ∃ v elems, data !! "new_dag_runs" = Some v
                  ∧ v ≠ PyNone
                  ∧ Py.iterable v
                  ∧ Py.iter v = Return elems
                  ∧ Forall Py.is_mapping elems
                  ∧ length (AirflowDagRunsResponse.dag_runs r)
                    = length elems).
Proof.
  unfold AirflowDagRunsResponse.from_dict, Py.dict_get. split.
  - intros [-> | ->]; cbn; by split.
  - intros r Hr.
    destruct (data !! "new_dag_runs") as [v|] eqn:Hv; [|done].
    destruct (Py.iter v) as [elems|e] eqn:Hiter; cbn in Hr; [|done].
    destruct (comprehension AirflowDagRunsResponse.dag_run_of elems)
      as [runs|e] eqn:Hruns; cbn in Hr; [|done].
    injection Hr as <-. cbn.
    apply comprehension_returns in Hruns.
    exists v, elems. repeat split.
    + by intros ->.
    + by eapply iter_returns.
    + done.
    + eapply Forall2_Forall_l; [exact Hruns|].
      apply Forall_forall. intros dr _ x Hx. by eapply dag_run_of_returns.
    + symmetry. by eapply Forall2_length.
Qed.

Lemma envelope_from_dict_partial_witness :
  AirflowDagRunsResponse.from_dict
    {[ "last_seen_dag_run_id" := PyInt 11; "last_seen_log_id" := PyInt 105 ]}
  = Raise TypeError
  ∧ AirflowDagRunsResponse.from_dict
      {[ "new_dag_runs" := PyNone; "last_seen_log_id" := PyInt 105 ]}
    = Raise TypeError.
Proof.
  split.
  - apply envelope_from_dict_partial. by left.
  - apply envelope_from_dict_partial. by right.
Defined.

(** ** Config refresh *)

Section RefreshConfig.

Import logging BaseComponent.

Lemma getLevelName_of_number n : ∃ s, getLevelName (LevelNo n) = LevelName s.
Proof. unfold getLevelName. destruct (assoc n _levelToName); eauto. Qed.

Lemma setLevel_checked l n w :
  _checkLevel l = Return n → setLevel l w = (set_root_level n w, Return ()).
Proof. unfold setLevel. by intros ->. Qed.

(** An unknown level name: [setLevel] raises after the config has been
    replaced, and the root level stays. *)
Lemma refresh_config_unknown_name self new_config w s :
  BaseServerConfig.log_level new_config = Some (LevelName s) →
  s ≠ "" → assoc s _nameToLevel = None →
  refresh_config self new_config w
  = ((set_config new_config self, w), Raise ValueError).
Proof.
  intros Hl Hs Hnone.
  unfold refresh_config, setLevel, set_config, getLevelName, _checkLevel,
    truthy.
  cbn [config]. rewrite Hl, Hnone.
  destruct (String.eqb_spec s ""); [done|].
  by rewrite bool_decide_eq_false_2.
Qed.

End RefreshConfig.

(** C8.  After [refresh_config(new_config)] the component holds
    [new_config]; when [log_level] is set and denotes the level [n], the
    call returns and the root logger's level is [n]; when [log_level] is
    unset ([None], or the false values [0] and the empty string), the call
    returns and nothing but the held config changes. *)
Theorem refresh_config_contract (self : BaseComponent.t)
    (new_config : BaseServerConfig.t) (w : world) :
  BaseComponent.config
    (fst (fst (BaseComponent.refresh_config self new_config w)))
  = new_config
  ∧ (∀ l n, BaseServerConfig.log_level new_config = Some l →
            logging.truthy (Some l) = true →
            logging._checkLevel l = Return n →
            snd (BaseComponent.refresh_config self new_config w) = Return ()
            ∧ root_level
                (snd (fst (BaseComponent.refresh_config self new_config w)))
              = n)
  ∧ (logging.truthy (BaseServerConfig.log_level new_config) = false →
       snd (BaseComponent.refresh_config self new_config w) = Return ()
       ∧ snd (fst (BaseComponent.refresh_config self new_config w)) = w).
Proof.
  unfold BaseComponent.refresh_config, BaseComponent.set_config.
  cbn [BaseComponent.config].
  split; [|split].
  - destruct (BaseServerConfig.log_level new_config) as [l|]; [|done].
    destruct (_ && _); [|done].
    by destruct (BaseComponent.setLevel l w).
  - intros l n -> Htruthy Hcheck. rewrite Htruthy, andb_true_l.
    case_bool_decide as Hname; cbn [negb fst snd].
    + (* the root logger already has the level *)
      split; [done|].
      destruct l as [k|s].
      * destruct (getLevelName_of_number k) as [s Hs]. congruence.
      * unfold logging.getLevelName in Hname.
        unfold logging._checkLevel in Hcheck.
        destruct (logging.assoc s logging._nameToLevel); congruence.
    + by rewrite (setLevel_checked l n w Hcheck).
  - intros Hfalsy.
    destruct (BaseServerConfig.log_level new_config) as [l|]; [|done].
    by rewrite Hfalsy.
Qed.

Lemma refresh_config_contract_witness :
  let new_config :=
    BaseServerConfig.mk "uid-1" "airflow-prod" 10
      (Some (logging.LevelName "DEBUG")) in
  let self := BaseComponent.init "AirflowRuntimeSyncer"
                (BaseServerConfig.mk "uid-1" "airflow-prod" 10 None) in
  root_level
    (snd (fst (BaseComponent.refresh_config self new_config fresh_world)))
  = logging.DEBUG
  ∧ snd (fst (BaseComponent.refresh_config
                (fst (fst (BaseComponent.refresh_config self new_config
                             fresh_world)))
                (BaseComponent.config self) fresh_world))
    = fresh_world.
Proof.
  intros new_config self. split.
  - apply (refresh_config_contract self new_config fresh_world)
      with (l := logging.LevelName "DEBUG"); reflexivity.
  - apply refresh_config_contract. reflexivity.
Defined.

(** C8, the claim as stated, fails for a config whose [log_level] names
    no level: [log_level] changes from unset to ["debug"], which
    [logging] does not know (its level names are upper case); the config
    is replaced, [setLevel] raises [ValueError], and the root logger's
    level is the one it had. *)
Lemma refresh_config_unknown_level_not_adjusted :
  let old_config := BaseServerConfig.mk "uid-1" "airflow-prod" 10 None in
  let new_config :=
    BaseServerConfig.mk "uid-1" "airflow-prod" 10
      (Some (logging.LevelName "debug")) in
  let self := BaseComponent.init "AirflowRuntimeSyncer" old_config in
  let after := BaseComponent.refresh_config self new_config fresh_world in
  BaseServerConfig.log_level new_config
  ≠ BaseServerConfig.log_level old_config
  ∧ BaseComponent.config (fst (fst after)) = new_config
  ∧ snd after = Raise ValueError
  ∧ root_level (snd (fst after)) = root_level fresh_world
  ∧ ∀ n, logging._checkLevel (logging.LevelName "debug") ≠ Return n.
Proof.
  intros old_config new_config self after.
  split; [discriminate|].
  split; [reflexivity|].
  split; [by vm_compute|].
  split; [by vm_compute|].
  intros n. vm_compute. discriminate.
Qed.

(** ** The error boundary of a cycle *)

Section Boundary.

Variable self : BaseComponent.t.
Variable body : action pyval.

(** The two ways [sync_once] ends, by the way its body ends. *)
Lemma sync_once_body_returns w w1 v :
  body (entered w) = (w1, Return v) →
  sync_once self body w
  = (set_tracing (tail (tracing_ids w1)) (next_tracing_id w1)
       (add_sync_metric true (set_health 0 (failure_log w1) w1)),
     Return v).
Proof.
  unfold entered, sync_once, with2, with_. cbn. by intros ->.
Qed.

Lemma sync_once_body_raises w w1 e :
  body (entered w) = (w1, Raise e) →
  sync_once self body w
  = (set_tracing (tail (tracing_ids w1)) (next_tracing_id w1)
       (add_sync_metric false
          (set_health (S (consecutive_failures w1))
             (mk_failure "sync_once" (classify e) (head (tracing_ids w1))
                :: failure_log w1) w1)),
     Return PyNone).
Proof.
  unfold entered, sync_once, with2, with_. cbn. by intros ->.
Qed.

(** The wrappers leave the tracking service's store as the body left
    it. *)
Lemma sync_once_store w :
  let w1 := fst (body (entered w)) in
  let w' := fst (sync_once self body w) in
  stored_watermark w' = stored_watermark w1
  ∧ received_payloads w' = received_payloads w1
  ∧ known_dag_runs w' = known_dag_runs w1.
Proof.
  destruct (body (entered w)) as [w1 [v|e]] eqn:Hbody; cbn.
  - by rewrite (sync_once_body_returns _ _ _ Hbody).
  - by rewrite (sync_once_body_raises _ _ _ Hbody).
Qed.

End Boundary.

(** C3.  [sync_once] returns normally whatever its [_sync_once] does: for
    every component, world and body there is a value it returns; and when
    the body raises [e], the call returns [None] after the failure has
    been classified and logged under the cycle's tracing id, the
    consecutive-failure counter incremented and [report_sync_metrics(False)]
    called. *)
Theorem sync_once_never_raises (self : BaseComponent.t)
    (_sync_once : action pyval) (w : world) :
  (∃ v, snd (sync_once self _sync_once w) = Return v)
  ∧ (∀ e, snd (_sync_once (entered w)) = Raise e →
       let w1 := fst (_sync_once (entered w)) in
       let w' := fst (sync_once self _sync_once w) in
       snd (sync_once self _sync_once w) = Return PyNone
       ∧ failure_log w'
         = mk_failure "sync_once" (classify e) (head (tracing_ids w1))
             :: failure_log w1
       ∧ consecutive_failures w' = S (consecutive_failures w1)
       ∧ sync_metrics w' = false :: sync_metrics w1).
Proof.
  destruct (_sync_once (entered w)) as [w1 [v|e]] eqn:Hbody.
  - rewrite (sync_once_body_returns self _ _ _ _ Hbody). split; [by eexists|].
    by intros e.
  - rewrite (sync_once_body_raises self _ _ _ _ Hbody). split; [by eexists|].
    by intros e' [= <-].
Qed.

Lemma sync_once_never_raises_witness :
  let self := BaseComponent.init "BaseComponent"
                (BaseServerConfig.mk "uid-1" "airflow-prod" 10 None) in
  sync_once self BaseComponent._sync_once fresh_world
  = (mk_world logging.INFO [] 1 1
       [mk_failure "sync_once" InternalBug (Some 0%nat)] [false]
       (LastSeenValues.mk PyNone PyNone) [] ∅,
     Return PyNone).
Proof.
  intros self.
  destruct (sync_once_never_raises self BaseComponent._sync_once fresh_world)
    as [_ Hraise].
  destruct (Hraise NotImplementedError eq_refl) as (Hret & _).
  destruct (sync_once self BaseComponent._sync_once fresh_world)
    as [w' r] eqn:Hcall.
  cbn in Hret. subst r.
  vm_compute in Hcall. by injection Hcall as <-.
Defined.

(** ** The sync cycle: what a cycle does to the tracking service's store *)

Section Cycle.

Import Syncer.

Variable self : BaseComponent.t.

(** The planning steps read the store and nothing else of the world. *)
Lemma plan_entered env w : plan env (entered w) = plan env w.
Proof. reflexivity. Qed.

Lemma cycle_cases env w : cycle_effect env w (cycle self env w).
Proof.
  destruct (sync_once_store self (_sync_once env) w) as (Hwm & Hpay & _).
  fold (cycle self env w) in Hwm, Hpay.
  unfold _sync_once in Hwm, Hpay. rewrite plan_entered in Hwm, Hpay.
  destruct (plan env w) as [[[payload wm]|]|e] eqn:Hplan.
  - unfold persist in Hwm, Hpay.
    destruct (save_acknowledged env payload) eqn:Hack.
    + by eapply effect_persisted.
    + by eapply effect_not_acknowledged.
  - by apply effect_empty.
  - by eapply effect_failed.
Qed.

(** A watermark that is to be written is at or above the stored one. *)
Lemma plan_accepts env w payload wm :
  plan env w = Return (Some (payload, wm)) →
  watermark_le (stored_watermark w) wm = true.
Proof.
  unfold plan, get_last_seen_values.
  destruct (fetch_dag_runs env (stored_watermark w)) as [resp|e]; [|done].
  cbn. destruct (is_empty resp); [done|].
  destruct (watermark_le (stored_watermark w) (proposed_watermark resp))
    eqn:Hle; [|done].
  destruct (reconcile env (known_dag_runs w) resp); [|done].
  cbn. by intros [= _ <-].
Qed.

(** A cycle whose response is empty writes nothing to the store. *)
Lemma cycle_empty env w :
  plan env w = Return None →
  stored_watermark (cycle self env w) = stored_watermark w
  ∧ received_payloads (cycle self env w) = received_payloads w
  ∧ known_dag_runs (cycle self env w) = known_dag_runs w.
Proof.
  intros Hplan.
  destruct (sync_once_store self (_sync_once env) w) as (Hwm & Hpay & Hknown).
  fold (cycle self env w) in Hwm, Hpay, Hknown.
  unfold _sync_once in Hwm, Hpay, Hknown.
  rewrite plan_entered, Hplan in Hwm, Hpay, Hknown.
  by rewrite Hwm, Hpay, Hknown.
Qed.

Lemma plan_empty env w :
  fetcher_empty env → plan env w = Return None.
Proof.
  intros Hempty. unfold plan.
  destruct (Hempty (get_last_seen_values w)) as (resp & -> & Hruns).
  cbn. unfold is_empty. by rewrite bool_decide_eq_true_2.
Qed.

(** *** The order on watermarks *)

Lemma field_le_trans a b c :
  field_le a b = true → field_le b c = true → field_le a c = true.
Proof.
  destruct a, b, c; cbn; try done.
  intros Hab Hbc. apply Z.leb_le. apply Z.leb_le in Hab, Hbc. lia.
Qed.

Lemma field_le_refl_r a b : field_le a b = true → field_le b b = true.
Proof. destruct a, b; cbn; try done; intros _; by apply Z.leb_le. Qed.

Lemma watermark_le_trans a b c :
  watermark_le a b = true → watermark_le b c = true →
  watermark_le a c = true.
Proof.
  unfold watermark_le.
  intros [Hab1 Hab2]%andb_prop [Hbc1 Hbc2]%andb_prop.
  apply andb_true_intro.
  split; eapply field_le_trans; eauto.
Qed.

Lemma watermark_le_refl_r a b :
  watermark_le a b = true → watermark_le b b = true.
Proof.
  unfold watermark_le. intros [H1 H2]%andb_prop.
  apply andb_true_intro. split; eapply field_le_refl_r; eauto.
Qed.

(** One cycle keeps the stored watermark or moves it up. *)
Lemma cycle_monotone env w :
  stored_watermark (cycle self env w) = stored_watermark w
  ∨ watermark_le (stored_watermark w) (stored_watermark (cycle self env w))
    = true.
Proof.
  destruct (cycle_cases env w)
    as [e _ Hwm|_ Hwm|p wm _ _ Hwm|p wm Hplan _ Hwm]; try by left.
  right. rewrite Hwm. by eapply plan_accepts.
Qed.

Lemma cycles_app envs1 envs2 w :
  cycles self (envs1 ++ envs2) w = cycles self envs2 (cycles self envs1 w).
Proof. unfold cycles. by rewrite foldl_app. Qed.

Lemma cycles_monotone envs w :
  stored_watermark (cycles self envs w) = stored_watermark w
  ∨ watermark_le (stored_watermark w) (stored_watermark (cycles self envs w))
    = true.
Proof.
  revert w. induction envs as [|env envs IH]; intros w; [by left|].
  change (cycles self (env :: envs) w)
    with (cycles self envs (cycle self env w)).
  destruct (IH (cycle self env w)) as [->|Hrest];
    [by apply cycle_monotone|].
  destruct (cycle_monotone env w) as [Heq|Hstep].
  - right. by rewrite <- Heq.
  - right. by eapply watermark_le_trans.
Qed.

End Cycle.

(** C1.  Across any sequence of cycles, whatever the fetchers answer, the
    stored watermark never decreases: the watermark after any number of
    cycles is kept by any further cycles or replaced by one at or above
    it, field by field, with absent below every integer; so for a store
    whose fields are absent or integers the watermark after the further
    cycles is at or above the one before them.  A cycle that is to write
    a lower watermark aborts instead and writes nothing. *)
Theorem watermark_monotone (self : BaseComponent.t)
    (envs further : list collaborators) (w : world) :
  let before := stored_watermark (Syncer.cycles self envs w) in
  let after := stored_watermark (Syncer.cycles self (envs ++ further) w) in
  (after = before ∨ Syncer.watermark_le before after = true)
  ∧ (Syncer.watermark_le before before = true →
     Syncer.watermark_le before after = true).
Proof.
  intros before after. subst before after. rewrite cycles_app.
  pose proof (cycles_monotone self further (Syncer.cycles self envs w))
    as Hmono.
  split; [done|].
  intros Htyped. destruct Hmono as [->|Hle]; done.
Qed.

Lemma watermark_monotone_witness :
  let self := BaseComponent.init "AirflowRuntimeSyncer"
                (BaseServerConfig.mk "uid-1" "airflow-prod" 10 None) in
  let w := set_tracking (LastSeenValues.mk (PyInt 10) (PyInt 100)) [] ∅
             fresh_world in
  let run := AirflowDagRun.init (PyInt 11) (PyStr "etl")
               (PyStr "2022-03-01T00:00:00") (PyStr "running")
               (PyBool false) (PyBool true) (PyInt 105) in
  let advancing := mk_collaborators
               (λ _, Return (AirflowDagRunsResponse.mk [run]
                               (PyInt 11) (PyInt 105)))
               (λ ids, Return ((λ i, TaskInstance.mk i PyNone) <$> ids))
               (λ _, true) in
  let regressing := mk_collaborators
               (λ _, Return (AirflowDagRunsResponse.mk [run]
                               (PyInt 5) (PyInt 50)))
               (λ ids, Return ((λ i, TaskInstance.mk i PyNone) <$> ids))
               (λ _, true) in
  stored_watermark (Syncer.cycles self [advancing] w)
  = LastSeenValues.mk (PyInt 11) (PyInt 105)
  ∧ stored_watermark (Syncer.cycles self [advancing; regressing] w)
    = LastSeenValues.mk (PyInt 11) (PyInt 105)
  ∧ Syncer.successful regressing (Syncer.cycles self [advancing] w) = false
  ∧ Syncer.watermark_le (stored_watermark w)
      (stored_watermark (Syncer.cycles self [advancing; regressing] w))
    = true.
Proof.
  intros self w run advancing regressing.
  split; [by vm_compute|].
  split; [by vm_compute|].
  split; [by vm_compute|].
  apply (watermark_monotone self [] [advancing; regressing] w).
  reflexivity.
Defined.

(** C2.  In a cycle whose payload write is not acknowledged, the stored
    watermark and the received payloads stay as they were, so the next
    cycle reads the watermark the failed cycle read; and a cycle that
    changes the stored watermark has had its payload write acknowledged
    and the payload recorded. *)
Theorem no_advance_on_persist_failure (self : BaseComponent.t)
    (env : collaborators) (w : world) :
  (∀ payload wm,
     Syncer.plan env w = Return (Some (payload, wm)) →
     save_acknowledged env payload = false →
     Syncer.get_last_seen_values (Syncer.cycle self env w)
     = Syncer.get_last_seen_values w
     ∧ received_payloads (Syncer.cycle self env w) = received_payloads w)
  ∧ (stored_watermark (Syncer.cycle self env w) ≠ stored_watermark w →
     ∃ payload wm,
       Syncer.plan env w = Return (Some (payload, wm))
       ∧ save_acknowledged env payload = true
       ∧ received_payloads (Syncer.cycle self env w)
         = payload :: received_payloads w
       ∧ stored_watermark (Syncer.cycle self env w) = wm).
Proof.
  unfold Syncer.get_last_seen_values.
  pose proof (cycle_cases self env w) as Hcases. split.
  - intros payload wm Hplan Hack.
    destruct Hcases as [e He|He|p wm' Hp _|p wm' Hp Hack']; try done.
    congruence.
  - intros Hchanged.
    destruct Hcases as [e _ Hwm|_ Hwm|p wm' _ _ Hwm|p wm' Hp Hack Hwm Hpay];
      try done.
    by exists p, wm'.
Qed.

Lemma no_advance_on_persist_failure_witness :
  let self := BaseComponent.init "AirflowRuntimeSyncer"
                (BaseServerConfig.mk "uid-1" "airflow-prod" 10 None) in
  let w := set_tracking (LastSeenValues.mk (PyInt 10) (PyInt 100)) [] ∅
             fresh_world in
  let run := AirflowDagRun.init (PyInt 11) (PyStr "etl")
               (PyStr "2022-03-01T00:00:00") (PyStr "running")
               (PyBool false) (PyBool true) (PyInt 105) in
  let env := mk_collaborators
               (λ _, Return (AirflowDagRunsResponse.mk [run]
                               (PyInt 11) (PyInt 105)))
               (λ ids, Return ((λ i, TaskInstance.mk i PyNone) <$> ids))
               (λ _, false) in
  Syncer.get_last_seen_values (Syncer.cycle self env w)
  = LastSeenValues.mk (PyInt 10) (PyInt 100)
  ∧ received_payloads (Syncer.cycle self env w) = [].
Proof.
  intros self w run env.
  destruct (no_advance_on_persist_failure self env w) as [Hfail _].
  apply (Hfail (DagRunsStateData.mk [run] [TaskInstance.mk 11 PyNone])
               (LastSeenValues.mk (PyInt 11) (PyInt 105)));
    by vm_compute.
Defined.

(** C7.  When the fetcher answers every request with an empty response,
    any number of consecutive cycles writes nothing to the tracking
    service: the stored watermark, the payloads it has received and the
    dag runs it knows are as they were. *)
Theorem empty_cycles_idempotent (self : BaseComponent.t)
    (envs : list collaborators) (w : world) :
  Forall Syncer.fetcher_empty envs →
  stored_watermark (Syncer.cycles self envs w) = stored_watermark w
  ∧ received_payloads (Syncer.cycles self envs w) = received_payloads w
  ∧ known_dag_runs (Syncer.cycles self envs w) = known_dag_runs w.
Proof.
  intros Hall. revert w.
  induction Hall as [|env envs Hempty _ IH]; intros w; [done|].
  change (Syncer.cycles self (env :: envs) w)
    with (Syncer.cycles self envs (Syncer.cycle self env w)).
  destruct (IH (Syncer.cycle self env w)) as (-> & -> & ->).
  apply cycle_empty. by apply plan_empty.
Qed.

Lemma empty_cycles_idempotent_witness :
  let self := BaseComponent.init "AirflowRuntimeSyncer"
                (BaseServerConfig.mk "uid-1" "airflow-prod" 10 None) in
  let w := set_tracking (LastSeenValues.mk (PyInt 10) (PyInt 100)) [] {[ 10 ]}
             fresh_world in
  let env := mk_collaborators
               (λ _, Return (AirflowDagRunsResponse.mk [] (PyInt 99)
                               (PyInt 999)))
               (λ _, Return [])
               (λ _, true) in
  stored_watermark (Syncer.cycles self (replicate 3 env) w)
  = LastSeenValues.mk (PyInt 10) (PyInt 100)
  ∧ received_payloads (Syncer.cycles self (replicate 3 env) w) = []
  ∧ known_dag_runs (Syncer.cycles self (replicate 3 env) w) = {[ 10 ]}.
Proof.
  intros self w env.
  apply (empty_cycles_idempotent self (replicate 3 env) w).
  repeat constructor; intros wm; by eexists.
Defined.

(** ** Readiness probe of the REST client *)

(** C10.  With the default retry policy a single chance, [is_ready] ends,
    with the fuel of one request, on every client and every answer of the
    network; on every exit path the client's
    [is_auth_required] is what it was before the call; an exception that
    leaves the call is neither a [DatabandConnectionException] nor a
    [DatabandApiError]; the result is [True] when the ping is answered by
    an ok response, [False] when it is answered by a response that is not
    ok (a [DatabandApiError], once the body is decoded) and [False] when
    the transport raises a connection error and [api_connection_refused]
    turns it into a [DatabandConnectionException]. *)
Theorem is_ready_safe (urljoin : string → string → string)
    (api_connection_refused : string → exn → exn)
    (LinearRetryPolicy : Z → Z → retry_policy) (net : requests.network)
    (fuel : nat) (self : ApiClient.t) (sent : list requests.Request) :
  ApiClient.single_chance LinearRetryPolicy →
  ∃ self' sent' r,
    ApiClient.is_ready urljoin api_connection_refused LinearRetryPolicy net
      (S (S fuel)) (self, sent)
    = Some ((self', sent'), r)
    ∧ ApiClient.is_auth_required self' = ApiClient.is_auth_required self
    ∧ (∀ e, r = Raise e → is_databand_error e = false)
    ∧ (∀ resp,
         ApiClient.ping_answer urljoin net (self, sent) = Return resp →
         requests.ok resp = true → r = Return true)
    ∧ (∀ resp body,
         ApiClient.ping_answer urljoin net (self, sent) = Return resp →
         requests.ok resp = false → requests.decoded resp = Return body →
         r = Return false)
    ∧ (∀ e,
         ApiClient.ping_answer urljoin net (self, sent) = Raise e →
         is_connection_error e = true →
         is_databand_error
           (api_connection_refused
              (ApiClient._api_base_url self
               +:+ urljoin ApiClient.api_prefix "auth/ping") e) = true →
         r = Return false).
Proof.
  unfold ApiClient.single_chance. intros Hsingle.
  unfold ApiClient.is_ready, ApiClient.ping_answer, ApiClient.ping_request.
  cbn [ApiClient.api_request ApiClient.attempts default fst snd].
  unfold ApiClient._request, ApiClient._init_session,
    ApiClient._init_session_try.
  cbn [fst snd ApiClient.session ApiClient.set_is_auth_required
       ApiClient.is_auth_required ApiClient.set_session negb
       ApiClient.credentials].
  destruct (ApiClient.session self) as [s|] eqn:Hs;
    unfold ApiClient.session_request;
    cbn [default fst snd ApiClient.session ApiClient.set_is_auth_required
         ApiClient.is_auth_required ApiClient.set_session negb
         ApiClient.credentials ApiClient._api_base_url
         ApiClient.default_headers];
    rewrite ?Hs, (left_id_L ∅ (∪));
    (destruct (net _ _) as [resp|e] eqn:Hnet;
     [ destruct (requests.ok resp) eqn:Hok; cbn [negb];
       [ destruct (negb (requests.content resp =? ""));
         [destruct (requests.parsed resp)|]
       | destruct (requests.decoded resp) as [body|e] eqn:Hdec;
         [|destruct (is_connection_error e) eqn:Hconn] ]
     | destruct (is_connection_error e) eqn:Hconn ]);
    cbn [fst ApiClient._api_base_url ApiClient.set_session
         ApiClient.set_is_auth_required is_databand_error];
    repeat match goal with
           | H : is_connection_error _ = _ |- _ => rewrite H
           end;
    rewrite ?Hsingle;
    cbn [fst ApiClient._api_base_url ApiClient.set_session
         ApiClient.set_is_auth_required is_databand_error];
    repeat match goal with
           | |- context [is_databand_error ?x] =>
               lazymatch x with
               | api_connection_refused _ _ => fail
               | _ => idtac
               end;
               destruct (is_databand_error x) eqn:?
           end.
  all: try (destruct (is_databand_error (api_connection_refused _ e)) eqn:Hacr).
  all: eexists _, _, _; (split; [reflexivity|]);
     cbn [ApiClient.is_auth_required ApiClient.set_is_auth_required];
     repeat split; intros; simplify_eq; try done; try congruence.
Qed.

Lemma is_ready_safe_witness :
  let urljoin := λ base url : string, base +:+ url in
  let refused := λ (_ : string) (_ : exn), DatabandConnectionException in
  let linear := λ seconds max_retries : Z,
    mk_retry_policy (λ _ _ retry_number, Z.ltb retry_number max_retries)
                    (λ _, seconds) in
  let net : requests.network := λ _ _, Raise RequestsConnectionError in
  let self := ApiClient.init "http://localhost:8080"
                (Some {[ "token" := "secret" ]}) in
  ApiClient.is_auth_required self = true
  ∧ ∃ self' sent',
      ApiClient.is_ready urljoin refused linear net 2 (self, [])
      = Some ((self', sent'), Return false)
      ∧ ApiClient.is_auth_required self' = true.
Proof.
  intros urljoin refused linear net self. split; [reflexivity|].
  destruct (is_ready_safe urljoin refused linear net 0 self [] eq_refl)
    as (self' & sent' & r & Hcall & Hflag & _ & _ & _ & Hrefused).
  exists self', sent'. rewrite Hcall.
  rewrite (Hrefused RequestsConnectionError eq_refl eq_refl eq_refl).
  by split.
Defined.

(* ===================================================================== *)
(** * Further properties of the embedded code *)
(* ===================================================================== *)

(** ** airflow_data.py *)

(** X1.  [LastSeenValues.as_dict] is lossless: the mapping has exactly the
    two watermark keys, each bound to its field (an absent field is
    written as [None], not dropped), and two watermarks with the same
    mapping are the same watermark. *)
Theorem as_dict_lossless (a b : LastSeenValues.t) :
  dom (LastSeenValues.as_dict a)
  = {[ "last_seen_dag_run_id"; "last_seen_log_id" ]}
  ∧ LastSeenValues.as_dict a !! "last_seen_dag_run_id"
    = Some (LastSeenValues.last_seen_dag_run_id a)
  ∧ LastSeenValues.as_dict a !! "last_seen_log_id"
    = Some (LastSeenValues.last_seen_log_id a)
  ∧ (LastSeenValues.as_dict a = LastSeenValues.as_dict b → a = b).
Proof.
  split; [apply as_dict_dom|].
  split; [by unfold LastSeenValues.as_dict; rewrite lookup_insert_eq|].
  split.
  - unfold LastSeenValues.as_dict.
    rewrite lookup_insert_ne by done. by rewrite lookup_insert_eq.
  - intros Heq.
    rewrite <- (from_dict_as_dict a), <- (from_dict_as_dict b).
    by rewrite Heq.
Qed.

Lemma as_dict_lossless_witness :
  LastSeenValues.mk (PyInt 11) PyNone = LastSeenValues.mk (PyInt 11) PyNone.
Proof.
  by apply (as_dict_lossless (LastSeenValues.mk (PyInt 11) PyNone)
              (LastSeenValues.mk (PyInt 11) PyNone)).
Defined.

(** X2.  The other round trip: [as_dict (from_dict d)] gives [d] back
    exactly when [d] has the two watermark keys and no other; a missing
    key comes back bound to [None] and any other key is lost. *)
Theorem as_dict_from_dict_iff (d : gmap string pyval) :
  LastSeenValues.as_dict (LastSeenValues.from_dict d) = d
  ↔ dom d = {[ "last_seen_dag_run_id"; "last_seen_log_id" ]}.
Proof.
  split.
  - intros <-. apply as_dict_dom.
  - intros Hdom. apply map_eq. intros k.
    unfold LastSeenValues.as_dict, LastSeenValues.from_dict, Py.dict_get.
    cbn [LastSeenValues.last_seen_dag_run_id LastSeenValues.last_seen_log_id].
    assert (is_Some (d !! "last_seen_dag_run_id")) as [x Hx].
    { apply elem_of_dom. rewrite Hdom. set_solver. }
    assert (is_Some (d !! "last_seen_log_id")) as [y Hy].
    { apply elem_of_dom. rewrite Hdom. set_solver. }
    rewrite Hx, Hy.
    destruct (decide (k = "last_seen_dag_run_id")) as [->|Hk1].
    { by rewrite lookup_insert_eq. }
    rewrite lookup_insert_ne by done.
    destruct (decide (k = "last_seen_log_id")) as [->|Hk2].
    { by rewrite lookup_insert_eq. }
    rewrite lookup_insert_ne by done. rewrite lookup_empty.
    symmetry. apply not_elem_of_dom. rewrite Hdom.
    set_unfold. by intros [?|?].
Qed.

Section EnvelopeErrors.

Import AirflowDagRunsResponse.

Lemma comprehension_raises {A B} (f : A → outcome B) xs e :
  comprehension f xs = Raise e → Exists (λ x, f x = Raise e) xs.
Proof.
  induction xs as [|x xs IH]; cbn; [done|].
  destruct (f x) as [y|e'] eqn:Hx; cbn.
  - destruct (comprehension f xs) as [ys|e'] eqn:Hxs; cbn; [done|].
    intros [= ->]. right. by apply IH.
  - intros [= ->]. by left.
Qed.

Lemma comprehension_total {A B} (f : A → outcome B) xs :
  Forall (λ x, ∃ y, f x = Return y) xs →
  ∃ ys, comprehension f xs = Return ys.
Proof.
  induction 1 as [|x xs [y Hy] _ [ys Hys]]; cbn; [by eexists|].
  rewrite Hy. cbn. rewrite Hys. cbn. by eexists.
Qed.

Lemma dag_run_of_raises dr e :
  dag_run_of dr = Raise e → e = AttributeError ∧ ¬ Py.is_mapping dr.
Proof.
  destruct dr; try (by rewrite dag_run_of_mapping);
    intros Hraise; injection Hraise as <-; (split; [done | intros []]).
Qed.

Lemma iter_raises v e :
  Py.iter v = Raise e → e = TypeError ∧ ¬ Py.iterable v.
Proof.
  destruct v; cbn; try done; intros [= <-]; (split; [done | intros []]).
Qed.

Lemma iter_iterable v : Py.iterable v → ∃ elems, Py.iter v = Return elems.
Proof. destruct v; cbn; try done; by eexists. Qed.

End EnvelopeErrors.

(** X3.  [AirflowDagRunsResponse.from_dict] returns a response exactly
    when the value under ["new_dag_runs"] can be iterated and every element
    it yields is a mapping; the watermark keys play no part in it. *)
Theorem envelope_from_dict_returns_iff (data : gmap string pyval) :
  (∃ r, AirflowDagRunsResponse.from_dict data = Return r)
  ↔ ∃ elems, Py.iter (Py.dict_get data "new_dag_runs") = Return elems
             ∧ Forall Py.is_mapping elems.
Proof.
  unfold AirflowDagRunsResponse.from_dict. split.
  - intros [r Hr].
    destruct (Py.iter _) as [elems|e]; cbn in Hr; [|done].
    destruct (comprehension _ elems) as [runs|e] eqn:Hruns; cbn in Hr; [|done].
    exists elems. split; [done|].
    apply comprehension_returns in Hruns.
    eapply Forall2_Forall_l; [exact Hruns|].
    apply Forall_forall. intros dr _ x Hx. by eapply dag_run_of_returns.
  - intros (elems & -> & Hall). cbn.
    destruct (comprehension_total AirflowDagRunsResponse.dag_run_of elems)
      as [runs ->]; [|by eexists].
    eapply Forall_impl; [exact Hall|].
    intros [] Hx; try done. eexists. apply dag_run_of_mapping.
Qed.

(** X4.  The only exceptions of [AirflowDagRunsResponse.from_dict] are
    [TypeError], raised when the value under ["new_dag_runs"] cannot be
    iterated (the key is missing, or bound to [None], a boolean or an
    integer), and [AttributeError], raised when an element it yields is
    not a mapping. *)
Theorem envelope_from_dict_errors (data : gmap string pyval) (e : exn) :
  AirflowDagRunsResponse.from_dict data = Raise e →
  (e = TypeError ∧ ¬ Py.iterable (Py.dict_get data "new_dag_runs"))
  ∨ (e = AttributeError
     ∧ ∃ elems, Py.iter (Py.dict_get data "new_dag_runs") = Return elems
                ∧ Exists (λ x, ¬ Py.is_mapping x) elems).
Proof.
  unfold AirflowDagRunsResponse.from_dict.
  destruct (Py.iter _) as [elems|e'] eqn:Hiter; cbn.
  - destruct (comprehension _ elems) as [runs|e'] eqn:Hruns; cbn; [done|].
    intros [= ->]. right.
    apply comprehension_raises in Hruns.
    assert (e = AttributeError) as ->.
    { apply Exists_exists in Hruns as (x & _ & Hx).
      by apply dag_run_of_raises in Hx as [-> _]. }
    split; [done|]. exists elems. split; [done|].
    eapply Exists_impl; [exact Hruns|].
    intros x Hx. by apply dag_run_of_raises in Hx as [_ ?].
  - intros [= ->]. left. by apply iter_raises.
Qed.

Lemma envelope_from_dict_errors_witness :
  AirflowDagRunsResponse.from_dict
    {[ "new_dag_runs" := PyList [PyDict ∅; PyInt 3] ]} = Raise AttributeError
  ∧ ¬ Py.is_mapping (PyInt 3).
Proof.
  split; [|intros []].
  destruct (AirflowDagRunsResponse.from_dict
              {[ "new_dag_runs" := PyList [PyDict ∅; PyInt 3] ]})
    as [r|e] eqn:Hcall; [by vm_compute in Hcall|].
  destruct (envelope_from_dict_errors _ _ Hcall) as [[_ Hnot]|[-> _]];
    [|done].
  exfalso. apply Hnot. by vm_compute.
Defined.

(** X5.  Keys the parser does not name are ignored: binding or removing a
    top-level key other than ["new_dag_runs"] and the two watermark keys
    does not change the result of [from_dict], and binding a key other
    than the seven it reads in a dag-run element does not change the dag
    run parsed from that element. *)
Theorem envelope_from_dict_ignores_unknown_keys :
  (∀ (data : gmap string pyval) k v,
     k ∉ ["new_dag_runs"; "last_seen_dag_run_id"; "last_seen_log_id"] →
     AirflowDagRunsResponse.from_dict (<[k := v]> data)
     = AirflowDagRunsResponse.from_dict data
     ∧ AirflowDagRunsResponse.from_dict (delete k data)
       = AirflowDagRunsResponse.from_dict data)
  ∧ (∀ (m : gmap string pyval) k v,
       k ∉ ["id"; "dag_id"; "execution_date"; "state"; "is_paused";
            "has_updated_task_instances"; "max_log_id"] →
       AirflowDagRunsResponse.dag_run_of (PyDict (<[k := v]> m))
       = AirflowDagRunsResponse.dag_run_of (PyDict m)).
Proof.
  split.
  - intros data k v Hk.
    unfold AirflowDagRunsResponse.from_dict.
    rewrite !dict_get_insert_ne, !dict_get_delete_ne; [done|..];
      intros ->; apply Hk; set_solver.
  - intros m k v Hk.
    rewrite !dag_run_of_mapping.
    rewrite !dict_get_insert_ne; [done|..];
      intros ->; apply Hk; set_solver.
Qed.

Lemma envelope_from_dict_ignores_unknown_keys_witness :
  AirflowDagRunsResponse.from_dict
    (<["source" := PyStr "airflow"]> {[ "new_dag_runs" := PyList [] ]})
  = AirflowDagRunsResponse.from_dict {[ "new_dag_runs" := PyList [] ]}.
Proof.
  destruct envelope_from_dict_ignores_unknown_keys as [Htop _].
  apply Htop. by apply (bool_decide_unpack _).
Defined.

Section BulkEnvelopes.

Import airflow_data.

Lemma copy_elements_list l : copy_elements (PyList l) = Return (PyList l).
Proof. reflexivity. Qed.

Lemma copy_elements_returns v r :
  copy_elements v = Return r →
  Py.iterable v ∧ ∃ l, r = PyList l ∧ Py.iter v = Return l.
Proof.
  unfold copy_elements.
  destruct (Py.iter v) as [l|e] eqn:Hiter; cbn; [|done].
  intros [= <-]. split; [by eapply iter_returns|]. by exists l.
Qed.

Lemma copy_elements_raises v e :
  copy_elements v = Raise e → e = TypeError ∧ ¬ Py.iterable v.
Proof.
  unfold copy_elements.
  destruct (Py.iter v) as [l|e'] eqn:Hiter; cbn; [done|].
  intros [= ->]. by apply iter_raises.
Qed.

Lemma copy_elements_iterable v :
  Py.iterable v → ∃ l, copy_elements v = Return (PyList l).
Proof.
  intros [l Hl]%iter_iterable. exists l. unfold copy_elements.
  by rewrite Hl.
Qed.

End BulkEnvelopes.

(** X6.  [DagRunsFullData]: reading back what [as_dict] wrote gives the
    record again exactly when its three fields are lists; a field that
    holds another iterable (a string, a mapping) comes back as the list of
    its elements and a field that cannot be iterated makes [from_dict]
    raise. *)
Theorem full_data_roundtrip_iff (x : airflow_data.DagRunsFullData.t) :
  airflow_data.DagRunsFullData.from_dict
    (airflow_data.DagRunsFullData.as_dict x) = Return x
  ↔ ∃ dags dag_runs task_instances,
      x = airflow_data.DagRunsFullData.mk
            (PyList dags) (PyList dag_runs) (PyList task_instances).
Proof.
  destruct x as [a b c].
  unfold airflow_data.DagRunsFullData.from_dict,
    airflow_data.DagRunsFullData.as_dict.
  cbn [airflow_data.DagRunsFullData.dags
       airflow_data.DagRunsFullData.dag_runs
       airflow_data.DagRunsFullData.task_instances].
  rewrite dict_get_insert_eq.
  rewrite (dict_get_insert_ne _ "dags" "dag_runs") by done.
  rewrite dict_get_insert_eq.
  rewrite (dict_get_insert_ne _ "dags" "task_instances") by done.
  rewrite (dict_get_insert_ne _ "dag_runs" "task_instances") by done.
  rewrite dict_get_insert_eq.
  split.
  - destruct (airflow_data.copy_elements a) as [a'|e] eqn:Ha; cbn; [|done].
    destruct (airflow_data.copy_elements b) as [b'|e] eqn:Hb; cbn; [|done].
    destruct (airflow_data.copy_elements c) as [c'|e] eqn:Hc; cbn; [|done].
    intros [= -> -> ->].
    apply copy_elements_returns in Ha as (_ & la & -> & _).
    apply copy_elements_returns in Hb as (_ & lb & -> & _).
    apply copy_elements_returns in Hc as (_ & lc & -> & _).
    by exists la, lb, lc.
  - intros (la & lb & lc & [= -> -> ->]).
    by rewrite !copy_elements_list.
Qed.

(** X7.  [DagRunsFullData.from_dict] returns exactly when ["dags"],
    ["dag_runs"] and ["task_instances"] are all bound to values that can
    be iterated; otherwise it raises [TypeError] (a missing key reads as
    [None]); and the three fields of a record it returns are lists. *)
Theorem full_data_from_dict_partial (data : gmap string pyval) :
  ((∃ r, airflow_data.DagRunsFullData.from_dict data = Return r)
   ↔ Py.iterable (Py.dict_get data "dags")
     ∧ Py.iterable (Py.dict_get data "dag_runs")
     ∧ Py.iterable (Py.dict_get data "task_instances"))
  ∧ (∀ e, airflow_data.DagRunsFullData.from_dict data = Raise e →
          e = TypeError)
  ∧ (∀ r, airflow_data.DagRunsFullData.from_dict data = Return r →
          ∃ dags dag_runs task_instances,
            r = airflow_data.DagRunsFullData.mk
                  (PyList dags) (PyList dag_runs) (PyList task_instances)).
Proof.
  unfold airflow_data.DagRunsFullData.from_dict.
  destruct (airflow_data.copy_elements (Py.dict_get data "dags"))
    as [a|ea] eqn:Ha; cbn.
  2: { apply copy_elements_raises in Ha as [-> Hna].
       split; [split; [by intros [r ?] | by intros (? & _)]|].
       split; [by intros e [= <-] | done]. }
  destruct (airflow_data.copy_elements (Py.dict_get data "dag_runs"))
    as [b|eb] eqn:Hb; cbn.
  2: { apply copy_elements_raises in Hb as [-> Hnb].
       split; [split; [by intros [r ?] | by intros (_ & ? & _)]|].
       split; [by intros e [= <-] | done]. }
  destruct (airflow_data.copy_elements (Py.dict_get data "task_instances"))
    as [c|ec] eqn:Hc; cbn.
  2: { apply copy_elements_raises in Hc as [-> Hnc].
       split; [split; [by intros [r ?] | by intros (_ & _ & ?)]|].
       split; [by intros e [= <-] | done]. }
  apply copy_elements_returns in Ha as (Hia & la & -> & _).
  apply copy_elements_returns in Hb as (Hib & lb & -> & _).
  apply copy_elements_returns in Hc as (Hic & lc & -> & _).
  split; [split; [done | by eexists]|].
  split; [done|].
  intros r [= <-]. by exists la, lb, lc.
Qed.

Lemma full_data_from_dict_partial_witness :
  airflow_data.DagRunsFullData.from_dict
    {[ "dags" := PyList []; "dag_runs" := PyList [] ]} = Raise TypeError.
Proof.
  destruct (airflow_data.DagRunsFullData.from_dict
              {[ "dags" := PyList []; "dag_runs" := PyList [] ]})
    as [r|e] eqn:Hcall; [by vm_compute in Hcall|].
  f_equal.
  by apply (full_data_from_dict_partial
              {[ "dags" := PyList []; "dag_runs" := PyList [] ]}).
Defined.

(** X8.  [DagRunsStateData] behaves alike: the round trip through
    [as_dict] and [from_dict] gives the record again exactly when both
    fields are lists, and [from_dict] returns exactly when
    ["task_instances"] and ["dag_runs"] are bound to values that can be
    iterated, raising [TypeError] otherwise. *)
Theorem state_data_roundtrip_and_partial :
  (∀ x : airflow_data.DagRunsStateData.t,
     airflow_data.DagRunsStateData.from_dict
       (airflow_data.DagRunsStateData.as_dict x) = Return x
     ↔ ∃ dag_runs task_instances,
         x = airflow_data.DagRunsStateData.mk
               (PyList dag_runs) (PyList task_instances))
  ∧ (∀ data : gmap string pyval,
       ((∃ r, airflow_data.DagRunsStateData.from_dict data = Return r)
        ↔ Py.iterable (Py.dict_get data "task_instances")
          ∧ Py.iterable (Py.dict_get data "dag_runs"))
       ∧ (∀ e, airflow_data.DagRunsStateData.from_dict data = Raise e →
               e = TypeError)).
Proof.
  split.
  - intros [b c].
    unfold airflow_data.DagRunsStateData.from_dict,
      airflow_data.DagRunsStateData.as_dict.
    cbn [airflow_data.DagRunsStateData.dag_runs
         airflow_data.DagRunsStateData.task_instances].
    rewrite dict_get_insert_eq.
    rewrite (dict_get_insert_ne _ "task_instances" "dag_runs") by done.
    rewrite dict_get_insert_eq.
    split.
    + destruct (airflow_data.copy_elements c) as [c'|e] eqn:Hc; cbn; [|done].
      destruct (airflow_data.copy_elements b) as [b'|e] eqn:Hb; cbn; [|done].
      intros [= -> ->].
      apply copy_elements_returns in Hb as (_ & lb & -> & _).
      apply copy_elements_returns in Hc as (_ & lc & -> & _).
      by exists lb, lc.
    + intros (lb & lc & [= -> ->]). by rewrite !copy_elements_list.
  - intros data. unfold airflow_data.DagRunsStateData.from_dict.
    destruct (airflow_data.copy_elements (Py.dict_get data "task_instances"))
      as [c|ec] eqn:Hc; cbn.
    2: { apply copy_elements_raises in Hc as [-> Hnc].
         split; [split; [by intros [r ?] | by intros (? & _)]|].
         by intros e [= <-]. }
    destruct (airflow_data.copy_elements (Py.dict_get data "dag_runs"))
      as [b|eb] eqn:Hb; cbn.
    2: { apply copy_elements_raises in Hb as [-> Hnb].
         split; [split; [by intros [r ?] | by intros (_ & ?)]|].
         by intros e [= <-]. }
    apply copy_elements_returns in Hb as (Hib & _).
    apply copy_elements_returns in Hc as (Hic & _).
    split; [split; [done | by eexists]|done].
Qed.

Lemma state_data_roundtrip_and_partial_witness :
  airflow_data.DagRunsStateData.from_dict
    {[ "dag_runs" := PyList [] ]} = Raise TypeError.
Proof.
  destruct (airflow_data.DagRunsStateData.from_dict
              {[ "dag_runs" := PyList [] ]})
    as [r|e] eqn:Hcall; [by vm_compute in Hcall|].
  f_equal.
  destruct state_data_roundtrip_and_partial as [_ Hpartial].
  by apply (Hpartial {[ "dag_runs" := PyList [] ]}).
Defined.

(** ** base_component.py *)

Section RefreshConfigMore.

Import logging BaseComponent.

Lemma set_root_level_twice n w :
  set_root_level n (set_root_level n w) = set_root_level n w.
Proof. reflexivity. Qed.

Lemma set_root_level_same w : set_root_level (root_level w) w = w.
Proof. by destruct w. Qed.

Lemma set_config_twice c self :
  set_config c (set_config c self) = set_config c self.
Proof. reflexivity. Qed.

Lemma getLevelName_of_known_name s n :
  assoc s _nameToLevel = Some n → getLevelName (LevelName s) = LevelNo n.
Proof. unfold getLevelName. by intros ->. Qed.

Lemma getLevelName_of_unknown_name s :
  assoc s _nameToLevel = None → ∃ t, getLevelName (LevelName s) = LevelName t.
Proof. unfold getLevelName. intros ->. by eexists. Qed.

(** What [refresh_config] does, by the shape of [log_level]. *)
Lemma refresh_config_cases self c w :
  let held := set_config c self in
  match BaseServerConfig.log_level c with
  | None => refresh_config self c w = ((held, w), Return ())
  | Some (LevelNo n) =>
      refresh_config self c w
      = ((held, if Z.eqb n 0 then w else set_root_level n w), Return ())
  | Some (LevelName s) =>
      match assoc s _nameToLevel with
      | Some n => refresh_config self c w = ((held, set_root_level n w), Return ())
      | None =>
          refresh_config self c w
          = ((held, w), if String.eqb s "" then Return () else Raise ValueError)
      end
  end.
Proof.
  unfold refresh_config, setLevel, set_config, truthy, _checkLevel.
  cbn [config].
  destruct (BaseServerConfig.log_level c) as [[n|s]|]; [| |done].
  - destruct (Z.eqb n 0); [done|]. cbn [negb andb].
    destruct (getLevelName_of_number n) as [t ->].
    by rewrite bool_decide_eq_false_2.
  - destruct (assoc s _nameToLevel) as [n|] eqn:Hs.
    + rewrite (getLevelName_of_known_name s n Hs).
      destruct (String.eqb_spec s "") as [->|_]; cbn [negb andb].
      * (* the empty string is no level name *)
        by vm_compute in Hs.
      * case_bool_decide as Hroot; cbn [negb]; [|done].
        injection Hroot as ->. by rewrite set_root_level_same.
    + destruct (getLevelName_of_unknown_name s Hs) as [t ->].
      destruct (String.eqb s ""); cbn [negb andb]; [done|].
      by rewrite bool_decide_eq_false_2.
Qed.

End RefreshConfigMore.

(** X9.  [refresh_config] raises only [ValueError], and exactly when
    [log_level] is a non-empty name that [logging] does not know; the new
    config is held all the same and the root logger keeps its level. *)
Theorem refresh_config_raises_iff (self : BaseComponent.t)
    (c : BaseServerConfig.t) (w : world) (e : exn) :
  (snd (BaseComponent.refresh_config self c w) = Raise e
   ↔ e = ValueError
     ∧ ∃ s, BaseServerConfig.log_level c = Some (logging.LevelName s)
            ∧ s ≠ ""
            ∧ logging.assoc s logging._nameToLevel = None)
  ∧ (snd (BaseComponent.refresh_config self c w) = Raise e →
     fst (BaseComponent.refresh_config self c w)
     = (BaseComponent.set_config c self, w)).
Proof.
  pose proof (refresh_config_cases self c w) as Hcases. cbn zeta in Hcases.
  destruct (BaseServerConfig.log_level c) as [[n|s]|].
  - rewrite Hcases. cbn [fst snd]. split; [|done].
    split; [done|]. by intros (_ & s & ? & _).
  - destruct (logging.assoc s logging._nameToLevel) as [n|] eqn:Hs;
      rewrite Hcases; cbn [fst snd].
    + split; [|done]. split; [done|].
      intros (_ & s' & [= <-] & _ & Hs'). congruence.
    + destruct (String.eqb_spec s "") as [->|Hne].
      * split; [|done]. split; [done|].
        by intros (_ & s' & [= <-] & Hs' & _).
      * split; [|done]. split.
        -- intros [= <-]. split; [done|]. by exists s.
        -- by intros [-> _].
  - rewrite Hcases. cbn [fst snd]. split; [|done].
    split; [done|]. by intros (_ & s & ? & _).
Qed.

Lemma refresh_config_raises_iff_witness :
  let c := BaseServerConfig.mk "uid-1" "airflow-prod" 10
             (Some (logging.LevelName "VERBOSE")) in
  let self := BaseComponent.init "AirflowRuntimeSyncer"
                (BaseServerConfig.mk "uid-1" "airflow-prod" 10 None) in
  BaseComponent.refresh_config self c fresh_world
  = ((BaseComponent.set_config c self, fresh_world), Raise ValueError).
Proof.
  intros c self.
  destruct (refresh_config_raises_iff self c fresh_world ValueError)
    as [[_ Hraises] Hstate].
  assert (snd (BaseComponent.refresh_config self c fresh_world)
          = Raise ValueError) as Hsnd.
  { apply Hraises. split; [done|]. by exists "VERBOSE". }
  specialize (Hstate Hsnd).
  destruct (BaseComponent.refresh_config self c fresh_world) as [st r].
  cbn in Hsnd, Hstate. by subst.
Defined.

(** X10.  [refresh_config] is idempotent: refreshing again with the same
    config, in the state the first call left, ends the same way and
    changes nothing further. *)
Theorem refresh_config_idempotent (self : BaseComponent.t)
    (c : BaseServerConfig.t) (w : world) :
  BaseComponent.refresh_config
    (fst (fst (BaseComponent.refresh_config self c w))) c
    (snd (fst (BaseComponent.refresh_config self c w)))
  = BaseComponent.refresh_config self c w.
Proof.
  pose proof (refresh_config_cases self c w) as Hfirst.
  cbn zeta in Hfirst.
  destruct (BaseServerConfig.log_level c) as [[n|s]|] eqn:Hlevel.
  - rewrite Hfirst. cbn [fst snd].
    pose proof (refresh_config_cases (BaseComponent.set_config c self) c
                  (if Z.eqb n 0 then w else set_root_level n w)) as Hsecond.
    cbn zeta in Hsecond. rewrite Hlevel in Hsecond. rewrite Hsecond.
    rewrite set_config_twice. by destruct (Z.eqb n 0).
  - destruct (logging.assoc s logging._nameToLevel) as [n|] eqn:Hs;
      rewrite Hfirst; cbn [fst snd].
    + pose proof (refresh_config_cases (BaseComponent.set_config c self) c
                    (set_root_level n w)) as Hsecond.
      cbn zeta in Hsecond. rewrite Hlevel, Hs in Hsecond. by rewrite Hsecond.
    + pose proof (refresh_config_cases (BaseComponent.set_config c self) c w)
        as Hsecond.
      cbn zeta in Hsecond. rewrite Hlevel, Hs in Hsecond. by rewrite Hsecond.
  - rewrite Hfirst. cbn [fst snd].
    pose proof (refresh_config_cases (BaseComponent.set_config c self) c w)
      as Hsecond.
    cbn zeta in Hsecond. rewrite Hlevel in Hsecond. by rewrite Hsecond.
Qed.

(** ** api_client.py *)

Section ClientProperties.

Variable urljoin : string → string → string.
Variable refused : string → exn → exn.
Variable linear : Z → Z → retry_policy.
Variable net : requests.network.

Lemma set_session_same self s :
  ApiClient.session self = Some s → ApiClient.set_session (Some s) self = self.
Proof. destruct self; cbn. by intros ->. Qed.

Lemma _request_quiet rec endpoint method data headers query self sent :
  no_login_due self →
  let req := built_request urljoin self endpoint method data headers query in
  ApiClient._request urljoin net rec endpoint method data headers query
    (self, sent)
  = Some
      (match net (length sent) req with
       | Return resp =>
           ((ApiClient.set_session
               (Some (requests.mk_session
                        (requests.set_cookies resp
                         ∪ requests.cookies (session_in_use self)))) self,
             req :: sent),
            if negb (requests.ok resp) then
              match requests.decoded resp with
              | Return body =>
                  Raise (DatabandApiError method (requests.url req)
                           (requests.status_code resp) body)
              | Raise e => Raise e
              end
            else if negb (String.eqb (requests.content resp) "") then
              match requests.parsed resp with
              | Return v => Return v
              | Raise _ => Return PyNone
              end
            else Return PyNone)
       | Raise e =>
           ((ApiClient.set_session
               (if is_connection_error e then None
                else Some (session_in_use self)) self,
             req :: sent), Raise e)
       end).
Proof.
  intros Hquiet. cbn zeta.
  unfold ApiClient._request, ApiClient._init_session,
    ApiClient._init_session_try, session_in_use, built_request.
  cbn [fst snd requests.url].
  destruct (ApiClient.session self) as [s|] eqn:Hs.
  - unfold ApiClient.session_request. rewrite Hs. cbn [fst snd default].
    destruct (net _ _) as [resp|e]; cbn [fst snd].
    + by repeat case_match.
    + destruct (is_connection_error e); [done|].
      by rewrite (set_session_same self (id s) Hs).
  - destruct Hquiet as [[s Hs']|Hauth]; [congruence|].
    cbn [ApiClient.is_auth_required ApiClient.set_session]. rewrite Hauth.
    cbn [negb fst snd ApiClient.session_request ApiClient.session
         ApiClient._api_base_url ApiClient.default_headers default].
    unfold ApiClient.session_request.
    cbn [ApiClient.session ApiClient.set_session].
    destruct (net _ _) as [resp|e]; cbn [fst snd].
    + by repeat case_match.
    + by destruct (is_connection_error e).
Qed.

Lemma attempts_unfold fuel url data method headers query policy handler n
    st :
  ApiClient.attempts urljoin refused linear net (S fuel) url data method
    headers query policy handler n st
  = match ApiClient._request urljoin net
            (λ endpoint data method,
               ApiClient.api_request urljoin refused linear net fuel endpoint
                 data method None None false None None)
            url method data headers query st with
    | None => None
    | Some (st, Return resp) => Some (st, Return resp)
    | Some (st, Raise ex) =>
        if is_connection_error ex then
          match (match handler with
                 | Some h => h ex policy n
                 | None => Return ()
                 end) with
          | Raise e => Some (st, Raise e)
          | Return _ =>
              if should_retry policy 500 None n
              then ApiClient.attempts urljoin refused linear net fuel url
                     data method headers query policy handler (n + 1) st
              else Some (st, Raise (refused
                                      (ApiClient._api_base_url (fst st)
                                       +:+ url) ex))
          end
        else Some (st, Raise ex)
    end.
Proof. reflexivity. Qed.

Lemma api_request_unfold fuel endpoint data method headers query no_prefix
    policy handler st :
  ApiClient.api_request urljoin refused linear net (S fuel) endpoint data
    method headers query no_prefix policy handler st
  = ApiClient.attempts urljoin refused linear net fuel
      (prefixed urljoin no_prefix endpoint) data method headers query
      (default (linear 0 1) policy) handler 1 st.
Proof. reflexivity. Qed.

(** X11.  How [_request] treats a response, when no login is due.  An ok
    response never raises: the result is the parsed JSON, or [None] when
    the body is empty or is not JSON.  A response that is not ok raises
    [DatabandApiError] with the method, the full url, the status code and
    the decoded body, or the decoding error when the body cannot be
    decoded. *)
Theorem request_response_handling rec endpoint method data headers query
    self sent resp :
  no_login_due self →
  net (length sent)
      (built_request urljoin self endpoint method data headers query)
  = Return resp →
  ∃ st' r,
    ApiClient._request urljoin net rec endpoint method data headers query
      (self, sent) = Some (st', r)
    ∧ (requests.ok resp = true →
       ∃ v, r = Return v
            ∧ (requests.content resp = "" → v = PyNone)
            ∧ (∀ e, requests.parsed resp = Raise e → v = PyNone)
            ∧ (∀ j, requests.content resp ≠ "" →
                    requests.parsed resp = Return j → v = j))
    ∧ (requests.ok resp = false →
       (∀ body, requests.decoded resp = Return body →
                r = Raise (DatabandApiError method
                             (urljoin (ApiClient._api_base_url self) endpoint)
                             (requests.status_code resp) body))
       ∧ (∀ e, requests.decoded resp = Raise e → r = Raise e)).
Proof.
  intros Hquiet Hnet.
  rewrite (_request_quiet rec endpoint method data headers query self sent
             Hquiet).
  cbn zeta. rewrite Hnet. eexists _, _. split; [reflexivity|].
  split.
  - intros ->. cbn [negb].
    destruct (String.eqb_spec (requests.content resp) "") as [Hc|Hc];
      cbn [negb].
    + exists PyNone. split; [done|]. split; [done|]. split; [done|].
      by intros j Hne.
    + destruct (requests.parsed resp) as [j|e].
      * exists j. split; [done|]. split; [done|]. split; [done|].
        by intros j' _ [= <-].
      * exists PyNone. by repeat split.
  - intros ->. cbn [negb]. split.
    + by intros body ->.
    + by intros e ->.
Qed.

(** session invariant of _request *)
Lemma request_returns_session rec endpoint method data headers query
    st st' v :
  ApiClient._request urljoin net rec endpoint method data headers query st
  = Some (st', Return v) →
  is_Some (ApiClient.session (fst st')).
Proof.
  unfold ApiClient._request.
  destruct (if ApiClient.session (fst st) is None then _ else _)
    as [[[self1 sent1] [u|e]]|]; [| done | done].
  unfold ApiClient.session_request. cbn [fst snd].
  destruct (ApiClient.session self1) as [s|]; [|done].
  destruct (net _ _) as [resp|e]; [|by destruct (is_connection_error e)].
  intros Hres.
  assert (fst st' = ApiClient.set_session
                      (Some (requests.mk_session
                               (requests.set_cookies resp
                                ∪ requests.cookies s))) self1) as ->.
  { repeat case_match; by simplify_eq. }
  by eexists.
Qed.

Lemma attempts_returns_session fuel url data method headers query policy
    handler n st st' v :
  ApiClient.attempts urljoin refused linear net fuel url data method headers
    query policy handler n st = Some (st', Return v) →
  is_Some (ApiClient.session (fst st')).
Proof.
  revert n st. induction fuel as [|fuel IH]; intros n st; [done|].
  cbn [ApiClient.attempts].
  destruct (ApiClient._request _ _ _ _ _ _ _ _ st)
    as [[st1 [v1|ex]]|] eqn:Hreq; [| |done].
  - intros [= <- <-]. by eapply request_returns_session.
  - destruct (is_connection_error ex); [|done].
    destruct (match handler with Some h => _ | None => _ end); [|done].
    destruct (should_retry policy 500 None n); [|done].
    apply IH.
Qed.

(** X12.  A call of [api_request] that returns leaves the client with a
    session, whatever the retries, the policy and the failure handler
    were. *)
Theorem api_request_returns_session fuel endpoint data method headers query
    no_prefix policy handler st st' v :
  ApiClient.api_request urljoin refused linear net fuel endpoint data method
    headers query no_prefix policy handler st = Some (st', Return v) →
  is_Some (ApiClient.session (fst st')).
Proof.
  destruct fuel as [|fuel]; [done|]. cbn [ApiClient.api_request].
  apply attempts_returns_session.
Qed.

Lemma built_request_headers self endpoint method data headers query k :
  requests.headers
    (built_request urljoin self endpoint method data headers query) !! k
  = match headers ≫= (λ h, h !! k) with
    | Some v => Some v
    | None => ApiClient.default_headers self !! k
    end.
Proof.
  unfold built_request. cbn [requests.headers].
  destruct headers as [h|]; cbn.
  - rewrite lookup_union.
    by destruct (h !! k), (ApiClient.default_headers self !! k).
  - by rewrite (left_id_L ∅ (∪)).
Qed.

(** X13.  When no login is due, [_request] sends exactly one request,
    the one built from its arguments, in which a per-call header overrides
    the default header of the same name; the client's default headers,
    credentials and [is_auth_required] are unchanged; and when the
    transport raises, the exception is raised on and the session is
    dropped for a connection error and kept for any other exception. *)
Theorem request_sends_built_request rec endpoint method data headers query
    self sent :
  no_login_due self →
  let req := built_request urljoin self endpoint method data headers query in
  ∃ self' r,
    ApiClient._request urljoin net rec endpoint method data headers query
      (self, sent) = Some ((self', req :: sent), r)
    ∧ ApiClient.default_headers self' = ApiClient.default_headers self
    ∧ ApiClient.credentials self' = ApiClient.credentials self
    ∧ ApiClient.is_auth_required self' = ApiClient.is_auth_required self
    ∧ (∀ k, requests.headers req !! k
            = match headers ≫= (λ h, h !! k) with
              | Some v => Some v
              | None => ApiClient.default_headers self !! k
              end)
    ∧ (∀ e, net (length sent) req = Raise e →
            r = Raise e
            ∧ ApiClient.session self'
              = if is_connection_error e then None
                else Some (session_in_use self)).
Proof.
  intros Hquiet req.
  rewrite (_request_quiet rec endpoint method data headers query self sent
             Hquiet).
  cbn zeta. fold req.
  destruct (net (length sent) req) as [resp|e] eqn:Hnet.
  - eexists _, _. split; [reflexivity|].
    do 3 (split; [done|]). split; [apply built_request_headers|].
    by intros e.
  - eexists _, _. split; [reflexivity|].
    do 3 (split; [by destruct (is_connection_error e)|]).
    split; [apply built_request_headers|].
    intros e' [= <-]. split; [done|].
    by destruct (is_connection_error e).
Qed.

(** X14.  An API error is never retried: when no login is due and the
    first answer is a response that is not ok, [api_request] raises the
    [DatabandApiError] after that one request, whatever the retry policy
    and the failure handler are. *)
Theorem api_request_api_error_not_retried fuel endpoint data method headers
    query no_prefix policy handler self sent resp body :
  no_login_due self →
  let req := built_request urljoin self (prefixed urljoin no_prefix endpoint) method
               data headers query in
  net (length sent) req = Return resp →
  requests.ok resp = false →
  requests.decoded resp = Return body →
  ∃ self',
    ApiClient.api_request urljoin refused linear net (S (S fuel)) endpoint
      data method headers query no_prefix policy handler (self, sent)
    = Some ((self', req :: sent),
            Raise (DatabandApiError method (requests.url req)
                     (requests.status_code resp) body)).
Proof.
  intros Hquiet req Hnet Hok Hbody.
  rewrite api_request_unfold, attempts_unfold.
  rewrite (_request_quiet _ _ method data headers query self sent Hquiet).
  cbn zeta. fold req.
  rewrite Hnet, Hok, Hbody. cbn [negb is_connection_error].
  by eexists.
Qed.


Lemma set_session_none_twice self :
  ApiClient.set_session None (ApiClient.set_session None self)
  = ApiClient.set_session None self.
Proof. reflexivity. Qed.

Lemma attempts_refused k :
  ∀ fuel url data method headers query policy m n self sent,
    ApiClient.is_auth_required self = false →
    (∀ i req, net i req = Raise RequestsConnectionError) →
    (∀ i, should_retry policy 500 None i = Z.ltb i m) →
    Z.to_nat (m - n) = k →
    ∃ sent',
      ApiClient.attempts urljoin refused linear net (S (k + fuel)) url data
        method headers query policy None n (self, sent)
      = Some ((ApiClient.set_session None self, sent'),
              Raise (refused (ApiClient._api_base_url self +:+ url)
                       RequestsConnectionError))
      ∧ length sent' = (length sent + S k)%nat.
Proof.
  induction k as [|k IH];
    intros fuel url data method headers query policy m n self sent
      Hauth Hnet Hpolicy Hk.
  - cbn [Nat.add]. rewrite attempts_unfold.
    rewrite (_request_quiet _ url method data headers query self sent)
      by (by right).
    cbn zeta. rewrite Hnet. cbn [is_connection_error fst].
    rewrite Hpolicy.
    replace (Z.ltb n m) with false by (symmetry; apply Z.ltb_ge; lia).
    eexists. split; [reflexivity|]. cbn [length]. lia.
  - cbn [Nat.add]. rewrite attempts_unfold.
    rewrite (_request_quiet _ url method data headers query self sent)
      by (by right).
    cbn zeta. rewrite Hnet. cbn [is_connection_error fst].
    rewrite Hpolicy.
    replace (Z.ltb n m) with true by (symmetry; apply Z.ltb_lt; lia).
    destruct (IH fuel url data method headers query policy m (n + 1)
                (ApiClient.set_session None self)
                (built_request urljoin self url method data headers query
                   :: sent))
      as (sent' & Hrun & Hlen); [done | done | done | lia |].
    exists sent'. rewrite Hrun. split; [done|].
    rewrite Hlen. cbn [length]. lia.
Qed.

(** X16.  Against a network that refuses every connection, a client
    that needs no login, with a policy that retries while the attempt
    number is below [m] and no failure handler, sends [max 1 m] requests,
    ends without a session and raises what [api_connection_refused] makes
    of the last connection error. *)
Theorem api_request_retries_exhausted fuel endpoint data method headers
    query no_prefix policy m self sent :
  ApiClient.is_auth_required self = false →
  (∀ i req, net i req = Raise RequestsConnectionError) →
  (∀ i, should_retry policy 500 None i = Z.ltb i m) →
  ∃ sent',
    ApiClient.api_request urljoin refused linear net
      (S (S (Z.to_nat (m - 1) + fuel))) endpoint data method headers query
      no_prefix (Some policy) None (self, sent)
    = Some ((ApiClient.set_session None self, sent'),
            Raise (refused (ApiClient._api_base_url self
                            +:+ prefixed urljoin no_prefix endpoint)
                     RequestsConnectionError))
    ∧ length sent' = (length sent + Z.to_nat (Z.max 1 m))%nat.
Proof.
  intros Hauth Hnet Hpolicy.
  rewrite api_request_unfold. cbn [default]. unfold id.
  destruct (attempts_refused (Z.to_nat (m - 1)) fuel
              (prefixed urljoin no_prefix endpoint) data method headers query
              policy m 1 self sent Hauth Hnet Hpolicy eq_refl)
    as (sent' & -> & Hlen).
  exists sent'. split; [done|]. rewrite Hlen. lia.
Qed.


Lemma built_request_ping self :
  built_request urljoin (ApiClient.set_is_auth_required false self)
    (prefixed urljoin false "auth/ping") "GET" PyNone None None
  = ApiClient.ping_request urljoin self.
Proof.
  unfold built_request, ApiClient.ping_request, prefixed. cbn.
  by rewrite (left_id_L ∅ (∪)).
Qed.

(** X18.  [is_ready] sends exactly one request, the ping with the
    client's default headers, and leaves the default headers, the
    credentials and the base url as they were: it never logs in and never
    sets an authorization header, whatever the credentials.  Whenever the
    ping is answered by a response, the client holds a session
    afterwards. *)
Theorem is_ready_sends_only_ping fuel self sent :
  ApiClient.single_chance linear →
  ∃ self' r,
    ApiClient.is_ready urljoin refused linear net (S (S fuel)) (self, sent)
    = Some ((self', ApiClient.ping_request urljoin self :: sent), r)
    ∧ ApiClient.default_headers self' = ApiClient.default_headers self
    ∧ ApiClient.credentials self' = ApiClient.credentials self
    ∧ ApiClient._api_base_url self' = ApiClient._api_base_url self
    ∧ (∀ resp, net (length sent) (ApiClient.ping_request urljoin self)
               = Return resp →
               is_Some (ApiClient.session self')).
Proof.
  unfold ApiClient.single_chance. intros Hsingle.
  unfold ApiClient.is_ready.
  rewrite api_request_unfold, attempts_unfold.
  rewrite (_request_quiet _ _ "GET" PyNone None None
             (ApiClient.set_is_auth_required false self) sent)
    by (by right).
  cbn zeta. rewrite built_request_ping.
  destruct (net _ _) as [resp|e].
  - destruct (if negb (requests.ok resp) then _ else _) as [v|ex].
    + eexists _, _. split; [reflexivity|]. repeat split; try done;
        intros; by eexists.
    + destruct (is_connection_error ex).
      * cbn [default]. rewrite Hsingle.
        eexists _, _. split; [reflexivity|]. repeat split; try done;
          intros; by eexists.
      * eexists _, _. split; [reflexivity|]. repeat split; try done;
          intros; by eexists.
  - destruct (is_connection_error e).
    + cbn [default]. rewrite Hsingle.
      eexists _, _. split; [reflexivity|]. by repeat split.
    + eexists _, _. split; [reflexivity|]. by repeat split.
Qed.

(** X20.  [_init_session] needs no network when authentication is not
    required or the credentials carry a token: in both cases a new session
    is created and no request is sent; with a token the default header
    [Authorization: Bearer token] is set and neither the [/app] request
    nor the login call is made, whatever else the credentials hold. *)
Theorem init_session_without_network rec self sent :
  (ApiClient.is_auth_required self = false →
   ApiClient._init_session urljoin net rec (ApiClient.credentials self)
     (self, sent)
   = Some ((ApiClient.set_session (Some requests.session) self, sent),
           Return ()))
  ∧ (∀ creds token,
       ApiClient.is_auth_required self = true →
       creds !! "token" = Some token → token ≠ "" →
       ApiClient._init_session urljoin net rec (Some creds) (self, sent)
       = Some ((ApiClient.set_header "Authorization" ("Bearer " +:+ token)
                  (ApiClient.set_session (Some requests.session) self),
                sent), Return ())).
Proof.
  unfold ApiClient._init_session, ApiClient._init_session_try.
  cbn [ApiClient.is_auth_required ApiClient.set_session].
  split.
  - by intros ->.
  - intros creds token -> -> Htoken. cbn [negb default]. unfold id.
    destruct (String.eqb_spec token ""); [congruence | done].
Qed.

Lemma _request_after_init rec endpoint method data headers query self sent
    st1 :
  ApiClient.session self = None →
  ApiClient._init_session urljoin net rec (ApiClient.credentials self)
    (self, sent) = Some (st1, Return ()) →
  is_Some (ApiClient.session (fst st1)) →
  ApiClient._request urljoin net rec endpoint method data headers query
    (self, sent)
  = ApiClient._request urljoin net rec endpoint method data headers query st1.
Proof.
  intros Hnone Hinit [s Hs]. unfold ApiClient._request.
  cbn [fst]. rewrite Hnone, Hinit, Hs. reflexivity.
Qed.

Lemma api_request_one_attempt fuel endpoint data method headers query
    no_prefix st st1 r :
  ApiClient.single_chance linear →
  ApiClient._request urljoin net
    (λ endpoint data method,
       ApiClient.api_request urljoin refused linear net fuel endpoint data
         method None None false None None)
    (prefixed urljoin no_prefix endpoint) method data headers query st
  = Some (st1, r) →
  ∃ r', ApiClient.api_request urljoin refused linear net (S (S fuel))
          endpoint data method headers query no_prefix None None st
        = Some (st1, r').
Proof.
  unfold ApiClient.single_chance. intros Hsingle Hreq.
  rewrite api_request_unfold, attempts_unfold, Hreq. cbn [default].
  destruct r as [v|ex]; [by eexists|].
  destruct (is_connection_error ex); [|by eexists].
  rewrite Hsingle. by eexists.
Qed.

(** X19.  The session [is_ready] leaves behind is not authenticated.
    For a new client whose credentials carry a token, a first
    [api_request] sends the header [Authorization: Bearer token]; but
    after an [is_ready] that was answered by an ok response the client
    holds a session, so the next [api_request] skips [_init_session] and
    its request carries no [Authorization] header, although
    [is_auth_required] is true again. *)
Theorem is_ready_leaves_unauthenticated_session fuel base creds token
    endpoint data method resp :
  ApiClient.single_chance linear →
  creds !! "token" = Some token → token ≠ "" →
  let self := ApiClient.init base (Some creds) in
  let ping := ApiClient.ping_request urljoin self in
  net 0%nat ping = Return resp →
  requests.ok resp = true →
  (∃ st r req,
     ApiClient.api_request urljoin refused linear net (S (S fuel)) endpoint
       data method None None false None None (self, []) = Some (st, r)
     ∧ snd st = [req]
     ∧ requests.headers req !! "Authorization" = Some ("Bearer " +:+ token))
  ∧ (∃ self',
       ApiClient.is_ready urljoin refused linear net (S (S fuel)) (self, [])
       = Some ((self', [ping]), Return true)
       ∧ ApiClient.is_auth_required self' = true
       ∧ ∃ st r req,
           ApiClient.api_request urljoin refused linear net (S (S fuel))
             endpoint data method None None false None None (self', [ping])
           = Some (st, r)
           ∧ snd st = [req; ping]
           ∧ requests.headers req !! "Authorization" = None).
Proof.
  intros Hsingle Htoken Hne self ping Hping Hok.
  assert (ApiClient.is_auth_required self = true) as Hauth.
  { unfold self, ApiClient.init, ApiClient.has_credentials.
    cbn [ApiClient.is_auth_required].
    rewrite bool_decide_eq_false_2; [done|].
    intros ->. by rewrite lookup_empty in Htoken. }
  split.
  - (* a first request authenticates with the token *)
    destruct (init_session_without_network
                (λ endpoint data method,
                   ApiClient.api_request urljoin refused linear net fuel
                     endpoint data method None None false None None)
                self []) as [_ Hinit].
    specialize (Hinit creds token Hauth Htoken Hne).
    set (self1 := ApiClient.set_header "Authorization" ("Bearer " +:+ token)
                    (ApiClient.set_session (Some requests.session) self))
      in Hinit.
    destruct (request_sends_built_request
                (λ endpoint data method,
                   ApiClient.api_request urljoin refused linear net fuel
                     endpoint data method None None false None None)
                (prefixed urljoin false endpoint) method data None None
                self1 []) as (self2 & r & Hreq & _ & _ & _ & Hheaders & _).
    { left. by eexists. }
    rewrite <- (_request_after_init _ _ _ _ _ _ self [] (self1, []))
      in Hreq; [|done|exact Hinit|by eexists].
    destruct (api_request_one_attempt _ _ _ _ _ _ _ _ _ _ Hsingle Hreq)
      as [r' Hcall].
    eexists _, r', _. split; [exact Hcall|]. split; [done|].
    rewrite Hheaders. cbn. unfold self1, ApiClient.set_header.
    cbn [ApiClient.default_headers]. by rewrite lookup_insert_eq.
  - (* after the readiness probe the session exists and no header is set *)
    unfold ApiClient.is_ready.
    rewrite api_request_unfold, attempts_unfold.
    rewrite (_request_quiet _ _ "GET" PyNone None None
               (ApiClient.set_is_auth_required false self) [])
      by (by right).
    cbn zeta. rewrite built_request_ping. fold ping. cbn [length].
    rewrite Hping, Hok. cbn [negb].
    set (self' := ApiClient.set_session _ _).
    assert (∃ v, (if negb (String.eqb (requests.content resp) "")
                  then match requests.parsed resp with
                       | Return v => Return v
                       | Raise _ => Return PyNone
                       end
                  else Return PyNone) = Return v) as [v ->].
    { destruct (negb _); [destruct (requests.parsed resp)|]; by eexists. }
    eexists. split; [reflexivity|]. rewrite Hauth. split; [done|].
    set (self'' := ApiClient.set_is_auth_required true self').
    destruct (request_sends_built_request
                (λ endpoint data method,
                   ApiClient.api_request urljoin refused linear net fuel
                     endpoint data method None None false None None)
                (prefixed urljoin false endpoint) method data None None
                self'' [ping]) as (self2 & r & Hreq & _ & _ & _ & Hheaders & _).
    { left. by eexists. }
    destruct (api_request_one_attempt _ _ _ _ _ _ _ _ _ _ Hsingle Hreq)
      as [r' Hcall].
    eexists _, r', _. split; [exact Hcall|]. split; [done|].
    rewrite Hheaders. cbn.
    unfold self, ApiClient.init. cbn [ApiClient.default_headers].
    by rewrite lookup_singleton_ne.
Qed.

(** X21.  The login flow.  For a client without session whose
    credentials have a username and a password and no token, and a server
    that answers [/app] with a [dbnd_csrftoken] cookie and accepts the
    login, [api_request] sends three requests in this order: the [GET] of
    [/app], the [POST] of the credentials to [auth/login] under the api
    prefix, and the request asked for; the login and the request asked for
    both carry the cookie's value as [X-CSRFToken]. *)
Theorem login_flow fuel endpoint data method no_prefix self sent creds r0 r1
    csrf :
  ApiClient.single_chance linear →
  ApiClient.session self = None →
  ApiClient.is_auth_required self = true →
  ApiClient.credentials self = Some creds →
  creds !! "token" = None →
  is_Some (creds !! "username") →
  is_Some (creds !! "password") →
  let get_app :=
    requests.mk_request "GET" (urljoin (ApiClient._api_base_url self) "/app")
      PyNone ∅ None in
  net (length sent) get_app = Return r0 →
  requests.set_cookies r0 !! "dbnd_csrftoken" = Some csrf →
  csrf ≠ "" →
  (∀ req, requests.method req = "POST" →
          net (S (length sent)) req = Return r1) →
  requests.ok r1 = true →
  ∃ st r login actual,
    ApiClient.api_request urljoin refused linear net (S (S (S (S fuel))))
      endpoint data method None None no_prefix None None (self, sent)
    = Some (st, r)
    ∧ snd st = actual :: login :: get_app :: sent
    ∧ requests.method login = "POST"
    ∧ requests.url login
      = urljoin (ApiClient._api_base_url self)
          (urljoin ApiClient.api_prefix "auth/login")
    ∧ requests.json login = ApiClient.json_of_credentials creds
    ∧ requests.headers login !! "X-CSRFToken" = Some csrf
    ∧ requests.url actual
      = urljoin (ApiClient._api_base_url self)
          (prefixed urljoin no_prefix endpoint)
    ∧ requests.headers actual !! "X-CSRFToken" = Some csrf.
Proof.
  intros Hsingle Hnone Hauth Hcreds Htoken Huser Hpass get_app Hr0 Hcsrf Hne
    Hr1 Hok.
  set (rec := λ endpoint data method,
         ApiClient.api_request urljoin refused linear net (S (S fuel))
           endpoint data method None None false None None).
  set (self1 := ApiClient.set_header "X-CSRFToken" csrf
                  (ApiClient.set_session
                     (Some (requests.mk_session
                              (requests.set_cookies r0 ∪ ∅))) self)).
  set (login := built_request urljoin self1
                  (prefixed urljoin false "auth/login") "POST"
                  (ApiClient.json_of_credentials creds) None None).
  set (self2 := ApiClient.set_session
                  (Some (requests.mk_session
                           (requests.set_cookies r1
                            ∪ (requests.set_cookies r0 ∪ ∅)))) self1).
  (* the login call *)
  assert (∃ v, rec "auth/login" (ApiClient.json_of_credentials creds) "POST"
                 (self1, get_app :: sent)
               = Some ((self2, login :: get_app :: sent), Return v))
    as [v Hlogin].
  { unfold rec. rewrite api_request_unfold, attempts_unfold.
    rewrite (_request_quiet _ _ "POST" _ None None self1 (get_app :: sent))
      by (left; by eexists).
    cbn zeta. fold login. cbn [length].
    rewrite (Hr1 login eq_refl), Hok. cbn [negb].
    destruct (negb (String.eqb (requests.content r1) ""));
      [destruct (requests.parsed r1)|]; by eexists. }
  (* the session initialisation *)
  assert (ApiClient._init_session urljoin net rec (ApiClient.credentials self)
            (self, sent)
          = Some ((self2, login :: get_app :: sent), Return ())) as Hinit.
  { unfold ApiClient._init_session, ApiClient._init_session_try.
    cbn [ApiClient.is_auth_required ApiClient.set_session].
    rewrite Hauth, Hcreds, Htoken. cbn [negb default String.eqb].
    unfold ApiClient.session_request.
    cbn [ApiClient.session ApiClient._api_base_url ApiClient.set_session].
    fold get_app. rewrite Hr0.
    cbn [ApiClient.session ApiClient.set_session requests.cookies
         requests.session mbind option_bind].
    rewrite (lookup_union_l' _ _ _ (mk_is_Some _ _ Hcsrf)), Hcsrf.
    cbn [default]. unfold id.
    destruct (String.eqb_spec csrf "") as [?|_]; [done|]. cbn [negb].
    rewrite !bool_decide_eq_true_2 by done. cbn [andb].
    lazymatch goal with
    | |- context [rec ?a ?b ?c ?st] =>
        change (rec a b c st)
          with (rec "auth/login" (ApiClient.json_of_credentials creds) "POST"
                  (self1, get_app :: sent))
    end.
    by rewrite Hlogin. }
  destruct (request_sends_built_request rec
              (prefixed urljoin no_prefix endpoint) method data None None
              self2 (login :: get_app :: sent))
    as (self3 & r & Hreq & _ & _ & _ & Hheaders & _).
  { left. by eexists. }
  rewrite <- (_request_after_init _ _ _ _ _ _ self sent
                (self2, login :: get_app :: sent))
    in Hreq; [|done|exact Hinit|by eexists].
  destruct (api_request_one_attempt _ _ _ _ _ _ _ _ _ _ Hsingle Hreq)
    as [r' Hcall].
  eexists _, r', login, _. split; [exact Hcall|].
  split; [done|]. split; [done|]. split; [done|]. split; [done|].
  split.
  { unfold login. rewrite built_request_headers. cbn.
    unfold self1, ApiClient.set_header. cbn [ApiClient.default_headers].
    by rewrite lookup_insert_eq. }
  split; [done|].
  rewrite Hheaders. cbn.
  unfold self2, self1, ApiClient.set_header, ApiClient.set_session.
  cbn [ApiClient.default_headers]. by rewrite lookup_insert_eq.
Qed.

End ClientProperties.

(** *** Examples for the properties of the client *)

Lemma request_response_handling_witness :
  ∃ st',
    ApiClient._request sample.urljoin
      (sample.always (Return sample.ok_response)) (λ _ _ _ _, None)
      "/api/v1/runs" "GET" PyNone None None (sample.client, [])
    = Some (st', Return (PyDict ∅)).
Proof.
  destruct (request_response_handling sample.urljoin
              (sample.always (Return sample.ok_response)) (λ _ _ _ _, None)
              "/api/v1/runs" "GET" PyNone None None sample.client []
              sample.ok_response)
    as (st' & r & Hcall & Hok & _); [by right | reflexivity |].
  destruct (Hok eq_refl) as (v & -> & _ & _ & Hjson).
  exists st'. rewrite Hcall.
  by rewrite (Hjson (PyDict ∅) ltac:(done) eq_refl).
Defined.

Lemma api_request_returns_session_witness :
  ∃ st' v,
    ApiClient.api_request sample.urljoin sample.refused sample.linear
      (sample.always (Return sample.ok_response)) 2 "runs" PyNone "GET"
      None None false None None (sample.client, [])
    = Some (st', Return v)
    ∧ is_Some (ApiClient.session (fst st')).
Proof.
  destruct (ApiClient.api_request sample.urljoin sample.refused sample.linear
              (sample.always (Return sample.ok_response)) 2 "runs" PyNone
              "GET" None None false None None (sample.client, []))
    as [[st' [v|e]]|] eqn:Hcall;
    [|by vm_compute in Hcall|by vm_compute in Hcall].
  exists st', v. split; [done|].
  by eapply api_request_returns_session.
Defined.

Lemma request_sends_built_request_witness :
  let headers : gmap string string := {[ "Accept" := "text/csv" ]} in
  ∃ self' r req,
    ApiClient._request sample.urljoin
      (sample.always (Return sample.ok_response)) (λ _ _ _ _, None)
      "/api/v1/runs" "GET" PyNone (Some headers) None (sample.client, [])
    = Some ((self', [req]), r)
    ∧ ApiClient.default_headers sample.client !! "Accept"
      = Some "application/json"
    ∧ requests.headers req !! "Accept" = Some "text/csv".
Proof.
  intros headers.
  destruct (request_sends_built_request sample.urljoin
              (sample.always (Return sample.ok_response)) (λ _ _ _ _, None)
              "/api/v1/runs" "GET" PyNone (Some headers) None sample.client
              [])
    as (self' & r & Hcall & _ & _ & _ & Hheaders & _); [by right|].
  eexists self', r, _. split; [exact Hcall|]. split; [reflexivity|].
  by rewrite Hheaders.
Defined.

Lemma api_request_api_error_not_retried_witness :
  ∃ self' req,
    ApiClient.api_request sample.urljoin sample.refused sample.linear
      (sample.always (Return sample.busy_response)) 2 "runs" PyNone "GET"
      None None false (Some (sample.linear 0 5)) None (sample.client, [])
    = Some ((self', [req]),
            Raise (DatabandApiError "GET"
                     "http://localhost:8080/api/v1/runs" 503 "busy")).
Proof.
  destruct (api_request_api_error_not_retried sample.urljoin sample.refused
              sample.linear (sample.always (Return sample.busy_response)) 0
              "runs" PyNone "GET" None None false
              (Some (sample.linear 0 5)) None sample.client []
              sample.busy_response "busy")
    as [self' Hcall]; [by right | reflexivity..|].
  by eexists self', _.
Defined.


Lemma api_request_retries_exhausted_witness :
  ∃ sent',
    ApiClient.api_request sample.urljoin sample.refused sample.linear
      (sample.always (Raise RequestsConnectionError)) 4 "runs" PyNone "GET"
      None None false (Some (sample.linear 0 3)) None (sample.client, [])
    = Some ((ApiClient.set_session None sample.client, sent'),
            Raise DatabandConnectionException)
    ∧ length sent' = 3%nat.
Proof.
  apply (api_request_retries_exhausted sample.urljoin sample.refused
           sample.linear (sample.always (Raise RequestsConnectionError)) 0
           "runs" PyNone "GET" None None false (sample.linear 0 3) 3
           sample.client []); by intros.
Defined.


Lemma is_ready_sends_only_ping_witness :
  let self := ApiClient.init "http://localhost:8080"
                (Some {[ "username" := "admin"; "password" := "secret" ]}) in
  ∃ self' r,
    ApiClient.is_ready sample.urljoin sample.refused sample.linear
      (sample.always (Return sample.ok_response)) 2 (self, [])
    = Some ((self', [ApiClient.ping_request sample.urljoin self]), r)
    ∧ ApiClient.default_headers self' = {[ "Accept" := "application/json" ]}.
Proof.
  intros self.
  destruct (is_ready_sends_only_ping sample.urljoin sample.refused
              sample.linear (sample.always (Return sample.ok_response)) 0
              self [])
    as (self' & r & Hcall & Hheaders & _); [reflexivity|].
  by exists self', r.
Defined.

Lemma is_ready_leaves_unauthenticated_session_witness :
  let self := ApiClient.init "http://localhost:8080"
                (Some {[ "token" := "secret" ]}) in
  let net := sample.always (Return sample.ok_response) in
  ∃ self' st r req,
    ApiClient.is_ready sample.urljoin sample.refused sample.linear net 2
      (self, [])
    = Some ((self', [ApiClient.ping_request sample.urljoin self]),
            Return true)
    ∧ ApiClient.api_request sample.urljoin sample.refused sample.linear net
        2 "runs" PyNone "GET" None None false None None
        (self', [ApiClient.ping_request sample.urljoin self])
      = Some (st, r)
    ∧ head (snd st) = Some req
    ∧ requests.headers req !! "Authorization" = None.
Proof.
  intros self net.
  destruct (is_ready_leaves_unauthenticated_session sample.urljoin
              sample.refused sample.linear net 0 "http://localhost:8080"
              {[ "token" := "secret" ]} "secret" "runs" PyNone "GET"
              sample.ok_response)
    as (_ & self' & Hready & _ & st & r & req & Hcall & Hsent & Hheader);
    [reflexivity | reflexivity | done | reflexivity | reflexivity |].
  exists self', st, r, req. split; [exact Hready|]. split; [exact Hcall|].
  split; [by rewrite Hsent | exact Hheader].
Defined.

Lemma init_session_without_network_witness :
  let creds : gmap string string :=
    {[ "token" := "secret"; "username" := "admin"; "password" := "pw" ]} in
  let self := ApiClient.init "http://localhost:8080" (Some creds) in
  ApiClient._init_session sample.urljoin
    (sample.always (Raise RequestsConnectionError)) (λ _ _ _ _, None)
    (Some creds) (self, [])
  = Some ((ApiClient.set_header "Authorization" "Bearer secret"
             (ApiClient.set_session (Some requests.session) self), []),
          Return ()).
Proof.
  intros creds self.
  apply (init_session_without_network sample.urljoin
           (sample.always (Raise RequestsConnectionError))
           (λ _ _ _ _, None) self []); [reflexivity | reflexivity | done].
Defined.

Lemma login_flow_witness :
  let creds : gmap string string :=
    {[ "username" := "admin"; "password" := "pw" ]} in
  let self := ApiClient.init "http://localhost:8080" (Some creds) in
  let net : requests.network := λ i _,
    match i with
    | O => Return sample.csrf_response
    | S _ => Return sample.ok_response
    end in
  ∃ st r get_app login actual,
    ApiClient.api_request sample.urljoin sample.refused sample.linear net 4
      "runs" PyNone "GET" None None false None None (self, [])
    = Some (st, r)
    ∧ snd st = [actual; login; get_app]
    ∧ requests.url get_app = "http://localhost:8080/app"
    ∧ requests.url login = "http://localhost:8080/api/v1/auth/login"
    ∧ requests.headers login !! "X-CSRFToken" = Some "c5rf"
    ∧ requests.headers actual !! "X-CSRFToken" = Some "c5rf".
Proof.
  intros creds self net.
  destruct (login_flow sample.urljoin sample.refused sample.linear net 0
              "runs" PyNone "GET" false self [] creds sample.csrf_response
              sample.ok_response "c5rf")
    as (st & r & login & actual & Hcall & Hsent & _ & Hurl & _ & Hlogin & _
        & Hactual);
    [reflexivity | reflexivity | reflexivity | reflexivity | reflexivity
    | by eexists | by eexists | reflexivity | reflexivity | done
    | by intros | reflexivity |].
  eexists st, r, _, login, actual.
  split; [exact Hcall|]. split; [exact Hsent|]. split; [reflexivity|].
  split; [exact Hurl|]. by split.
Defined.


Section DictDump.

Variable dump : pyval → outcome pyval.

Let dump_item (item : string * pyval) : outcome (string * pyval) :=
  dumped ← dump (snd item); Return (fst item, dumped).

Lemma dump_item_returns item out :
  dump_item item = Return out →
  fst out = fst item ∧ dump (snd item) = Return (snd out).
Proof.
  unfold dump_item. destruct (dump (snd item)) as [d|e]; cbn; [|done].
  by intros [= <-].
Qed.

Lemma dump_items_keys items outs :
  Forall2 (λ item out, dump_item item = Return out) items outs →
  fst <$> outs = fst <$> items.
Proof.
  induction 1 as [|item out items outs Hitem _ IH]; [done|].
  cbn. apply dump_item_returns in Hitem as [-> _]. by rewrite IH.
Qed.

Lemma dump_items_elem items outs k d :
  Forall2 (λ item out, dump_item item = Return out) items outs →
  (k, d) ∈ outs ↔ ∃ v, (k, v) ∈ items ∧ dump v = Return d.
Proof.
  induction 1 as [|[k0 v0] [k1 d1] items outs Hitem _ IH].
  - split; [by intros ?%elem_of_nil|].
    by intros (v & ?%elem_of_nil & _).
  - apply dump_item_returns in Hitem as [Hk Hd]. cbn in Hk, Hd. subst k1.
    rewrite elem_of_cons, IH. split.
    + intros [[= -> ->]|(v & Hin & Hv)].
      * exists v0. split; [by left|done].
      * exists v. split; [by right|done].
    + intros (v & [[= -> ->]|Hin]%elem_of_cons & Hv).
      * left. congruence.
      * right. by exists v.
Qed.

(** X22.  [dict_dump] keeps the keys and dumps the values: when it
    returns, a key is bound to [d] in the result exactly when it is bound
    in the argument to a value whose dump is [d]; and when it raises, the
    exception is the one the dump of some value of the argument raised. *)
Theorem dict_dump_keeps_keys (obj_dict : gmap string pyval) :
  (∀ r, dict_dump dump obj_dict = Return r →
        ∀ k d, r !! k = Some d
               ↔ ∃ v, obj_dict !! k = Some v ∧ dump v = Return d)
  ∧ (∀ e, dict_dump dump obj_dict = Raise e →
          ∃ k v, obj_dict !! k = Some v ∧ dump v = Raise e).
Proof.
  unfold dict_dump. fold dump_item.
  destruct (comprehension dump_item (map_to_list obj_dict))
    as [outs|e'] eqn:Houts; cbn.
  - split; [|done]. intros r [= <-] k d.
    apply comprehension_returns in Houts.
    rewrite <- elem_of_list_to_map.
    + rewrite (dump_items_elem _ _ k d Houts).
      by setoid_rewrite elem_of_map_to_list.
    + rewrite (dump_items_keys _ _ Houts). apply NoDup_fst_map_to_list.
  - split; [done|]. intros e [= <-].
    apply comprehension_raises in Houts.
    apply Exists_exists in Houts as ([k v] & Hin & Hraise).
    exists k, v. split; [by apply elem_of_map_to_list|].
    unfold dump_item in Hraise. cbn [snd] in Hraise.
    destruct (dump v) as [d|e0]; cbn in Hraise; [done|].
    by injection Hraise as ->.
Qed.

End DictDump.

Lemma dict_dump_keeps_keys_witness :
  let dump := λ v, match v with
                   | PyInt z => Return (PyStr (pretty z))
                   | _ => Raise ValueError
                   end in
  (∀ r, dict_dump dump {[ "a" := PyInt 1; "b" := PyInt 20 ]} = Return r →
        r !! "b" = Some (PyStr "20"))
  ∧ dict_dump dump {[ "a" := PyInt 1; "b" := PyNone ]} = Raise ValueError.
Proof.
  intros dump. split.
  - intros r Hr.
    apply (dict_dump_keeps_keys dump {[ "a" := PyInt 1; "b" := PyInt 20 ]});
      [exact Hr|].
    by exists (PyInt 20).
  - destruct (dict_dump dump {[ "a" := PyInt 1; "b" := PyNone ]})
      as [r|e] eqn:Hcall; [by vm_compute in Hcall|].
    destruct (dict_dump_keeps_keys dump {[ "a" := PyInt 1; "b" := PyNone ]})
      as [_ Hraise].
    destruct (Hraise e Hcall) as (k & v & _ & Hdump).
    f_equal. unfold dump in Hdump. by destruct v; simplify_eq.
Defined.

(** ** logger_config.py *)

(** X23.  [configure_logging] starts the root logger afresh: whatever
    handlers and level it had, it ends with exactly one handler, writing
    to standard output, and level [INFO], so that calling it again changes
    nothing; the formatter is the JSON one only when [use_json] is set and
    [JsonFormatter] could be imported; and [DBND__LOG__DISABLED] is set to
    ["true"] only when the environment does not set it, every other
    variable staying as it was. *)
Theorem configure_logging_resets_root (imported use_json : bool)
    (p : logger_config.process) :
  let p' := logger_config.configure_logging imported use_json p in
  (∃ h, logger_config.root_handlers p' = [h]
        ∧ logger_config.stream h = "sys.stdout"
        ∧ (logger_config.handler_formatter h
           = Some logger_config.JsonFormatter
           ↔ use_json = true ∧ imported = true))
  ∧ logger_config.root_logger_level p' = logging.INFO
  ∧ logger_config.configure_logging imported use_json p' = p'
  ∧ (∀ v, logger_config.environ p !! "DBND__LOG__DISABLED" = Some v →
          logger_config.environ p' = logger_config.environ p)
  ∧ (logger_config.environ p !! "DBND__LOG__DISABLED" = None →
     logger_config.environ p' !! "DBND__LOG__DISABLED" = Some "true")
  ∧ (∀ k, k ≠ "DBND__LOG__DISABLED" →
          logger_config.environ p' !! k = logger_config.environ p !! k).
Proof.
  unfold logger_config.configure_logging, logger_config.addHandler,
    logger_config.setFormatter, logger_config.setdefault.
  cbn [logger_config.root_handlers logger_config.root_logger_level
       logger_config.environ logger_config.stream].
  rewrite bool_decide_eq_false_2 by apply not_elem_of_nil.
  cbn [app].
  split.
  { eexists. split; [reflexivity|]. split; [reflexivity|].
    cbn [logger_config.handler_formatter].
    destruct use_json, imported; cbn; split; try done;
      by intros [??]. }
  split; [done|].
  split.
  { f_equal.
    destruct (logger_config.environ p !! "DBND__LOG__DISABLED") eqn:Henv.
    - by rewrite Henv.
    - by rewrite lookup_insert_eq. }
  split; [by intros v ->|].
  split; [intros ->; by rewrite lookup_insert_eq|].
  intros k Hk.
  destruct (logger_config.environ p !! "DBND__LOG__DISABLED"); [done|].
  by rewrite lookup_insert_ne.
Qed.

Lemma configure_logging_resets_root_witness :
  let p := logger_config.mk_process
             [logger_config.StreamHandler "sys.stderr" None] logging.DEBUG
             {[ "DBND__LOG__DISABLED" := "false" ]} in
  logger_config.environ (logger_config.configure_logging false true p)
  = logger_config.environ p
  ∧ logger_config.root_handlers (logger_config.configure_logging false true p)
    = [logger_config.StreamHandler "sys.stdout"
         (Some (logger_config.Formatter logger_config.plain_format))].
Proof.
  intros p.
  destruct (configure_logging_resets_root false true p)
    as (_ & _ & _ & Henv & _).
  split; [by apply (Henv "false")|reflexivity].
Defined.

(** ** dbnd_aws/env.py *)

(** X24.  [prepare_env] never overwrites: every variable the environment
    sets keeps its value, and no variable other than the two AWS keys is
    touched.  The two keys are set together or not at all: either the
    environment is unchanged, or neither key was set and both are now
    bound to the credentials; in particular, when one of the two is set
    the other is not added.  A second call changes nothing. *)
Theorem prepare_env_never_overwrites (creds : AwsEnvConfig.credentials)
    (environ : gmap string string) :
  (∀ k v, environ !! k = Some v →
          AwsEnvConfig.prepare_env creds environ !! k = Some v)
  ∧ (∀ k, k ≠ AwsEnvConfig.access_key_env →
          k ≠ AwsEnvConfig.secret_key_env →
          AwsEnvConfig.prepare_env creds environ !! k = environ !! k)
  ∧ (AwsEnvConfig.prepare_env creds environ = environ
     ∨ (environ !! AwsEnvConfig.access_key_env = None
        ∧ environ !! AwsEnvConfig.secret_key_env = None
        ∧ AwsEnvConfig.prepare_env creds environ
            !! AwsEnvConfig.access_key_env
          = AwsEnvConfig.access_key creds
        ∧ AwsEnvConfig.prepare_env creds environ
            !! AwsEnvConfig.secret_key_env
          = AwsEnvConfig.secret_key creds))
  ∧ (is_Some (environ !! AwsEnvConfig.access_key_env)
     ∨ is_Some (environ !! AwsEnvConfig.secret_key_env) →
     AwsEnvConfig.prepare_env creds environ = environ)
  ∧ AwsEnvConfig.prepare_env creds
      (AwsEnvConfig.prepare_env creds environ)
    = AwsEnvConfig.prepare_env creds environ.
Proof.
  assert (AwsEnvConfig.prepare_env creds environ = environ
          ∨ ∃ a b,
              AwsEnvConfig.access_key creds = Some a
              ∧ AwsEnvConfig.secret_key creds = Some b
              ∧ environ !! AwsEnvConfig.access_key_env = None
              ∧ environ !! AwsEnvConfig.secret_key_env = None
              ∧ AwsEnvConfig.prepare_env creds environ
                = <[AwsEnvConfig.secret_key_env := b]>
                    (<[AwsEnvConfig.access_key_env := a]> environ))
    as [Hsame|(a & b & Ha & Hb & Hak & Hsk & Hset)].
  { unfold AwsEnvConfig.prepare_env.
    destruct (AwsEnvConfig.access_key creds) as [a|]; [|by left].
    destruct (AwsEnvConfig.secret_key creds) as [b|];
      [|left; cbn; by rewrite andb_false_r].
    destruct (_ && _ && _ && _) eqn:Hcond; [|by left].
    right. exists a, b.
    apply andb_prop in Hcond as [[_ Hak]%andb_prop Hsk].
    apply negb_true_iff, bool_decide_eq_false in Hak, Hsk.
    apply eq_None_not_Some in Hak, Hsk. by repeat split. }
  - rewrite !Hsame. split; [done|]. split; [done|]. split; [by left|].
    by split.
  - assert (AwsEnvConfig.prepare_env creds environ
              !! AwsEnvConfig.access_key_env = Some a) as Hnew.
    { by rewrite Hset, lookup_insert_ne, lookup_insert_eq. }
    split.
    { intros k v Hk. rewrite Hset.
      rewrite !lookup_insert_ne; [done|congruence|congruence]. }
    split.
    { intros k Hk1 Hk2. rewrite Hset. by rewrite !lookup_insert_ne. }
    split.
    { right. split; [done|]. split; [done|]. split; [congruence|].
      by rewrite Hset, lookup_insert_eq, Hb. }
    split.
    { intros [[v Hv]|[v Hv]]; congruence. }
    unfold AwsEnvConfig.prepare_env at 1.
    rewrite (bool_decide_eq_true_2 _ (mk_is_Some _ _ Hnew)).
    cbn [negb]. by rewrite andb_false_r.
Qed.

Lemma prepare_env_never_overwrites_witness :
  let creds := AwsEnvConfig.mk_credentials (Some "AKIA") (Some "s3cr3t") in
  let environ : gmap string string := {[ "AWS_ACCESS_KEY_ID" := "mine" ]} in
  AwsEnvConfig.prepare_env creds environ = environ.
Proof.
  intros creds environ.
  destruct (prepare_env_never_overwrites creds environ)
    as (_ & _ & _ & Hset & _).
  apply Hset. left. by eexists.
Defined.

(** ** dbnd_spark/local/local_spark.py *)

Section SparkReturnCode.

Import LocalSparkExecutionCtrl.

Lemma strip_prefix_app p s rest :
  strip_prefix p s = Some rest ↔ s = p +:+ rest.
Proof.
  revert s. induction p as [|a p IH]; intros s; cbn.
  - split; [by intros [= ->] | by intros ->].
  - destruct s as [|b s]; [by split|].
    destruct (Ascii.eqb_spec a b) as [->|Hne].
    + rewrite IH. split; [by intros -> | by intros [= ->]].
    + split; [done | intros [= ? _]; congruence].
Qed.

Lemma match_here_spec s g :
  match_here s = Some g
  ↔ ∃ d x post,
      s = "Error code is: " +:+ String d (String x post)
      ∧ in_class d = true ∧ any_char x = true ∧ g = String d EmptyString.
Proof.
  unfold match_here.
  destruct (strip_prefix "Error code is: " s) as [rest|] eqn:Hstrip.
  - apply strip_prefix_app in Hstrip as ->.
    destruct rest as [|d [|x post]].
    + split; [done|]. intros (d & x & post & Heq & _).
      by apply (inj (String.append _)) in Heq.
    + split; [done|]. intros (d' & x & post & Heq & _).
      by apply (inj (String.append _)) in Heq.
    + destruct (in_class d && any_char x) eqn:Hok.
      * apply andb_prop in Hok as [Hd Hx]. split.
        -- intros [= <-]. by exists d, x, post.
        -- intros (d' & x' & post' & Heq & _ & _ & ->).
           apply (inj (String.append _)) in Heq. by injection Heq as <- _ _.
      * split; [done|]. intros (d' & x' & post' & Heq & Hd & Hx & _).
        apply (inj (String.append _)) in Heq. injection Heq as <- <- _.
        by rewrite Hd, Hx in Hok.
  - split; [done|]. intros (d & x & post & -> & _).
    assert (strip_prefix "Error code is: "
              ("Error code is: " +:+ String d (String x post))
            = Some (String d (String x post))) as Hs
      by by apply strip_prefix_app.
    congruence.
Qed.

Lemma search_sound s g :
  search s = Some g →
  ∃ pre d x post,
    s = pre +:+ "Error code is: " +:+ String d (String x post)
    ∧ in_class d = true ∧ any_char x = true ∧ g = String d EmptyString.
Proof.
  induction s as [|c s IH].
  - cbn. done.
  - cbn [search].
    destruct (match_here (String c s)) as [g'|] eqn:Hhere.
    + intros [= <-].
      apply match_here_spec in Hhere as (d & x & post & Heq & Hd & Hx & ->).
      exists "", d, x, post. by rewrite Heq.
    + intros (pre & d & x & post & -> & Hrest)%IH.
      by exists (String c pre), d, x, post.
Qed.

Lemma string_length_app a b :
  String.length (a +:+ b) = (String.length a + String.length b)%nat.
Proof. induction a as [|c a IH]; [done|]. cbn. by rewrite <- IH. Qed.

Lemma search_here s g : match_here s = Some g → search s = Some g.
Proof. intros Hhere. destruct s; cbn [search]; by rewrite Hhere. Qed.

Lemma search_later c s :
  is_Some (search s) → is_Some (search (String c s)).
Proof. intros Hs. cbn [search]. by destruct (match_here (String c s)). Qed.

Lemma search_complete pre d x post :
  in_class d = true → any_char x = true →
  is_Some (search (pre +:+ "Error code is: " +:+ String d (String x post))).
Proof.
  intros Hd Hx. induction pre as [|c pre IH].
  - exists (String d EmptyString). apply search_here.
    apply match_here_spec. by exists d, x, post.
  - by apply search_later.
Qed.

End SparkReturnCode.

(** X25.  [_get_spark_return_code_from_exception] returns ["0"] or one
    character out of [0-9+].  A code is found exactly when the message
    holds ["Error code is: "] followed by such a character and one more
    character that is not a newline; the code returned is then such a
    character, and ["0"] is returned when there is no such place. *)
Theorem spark_return_code (message : string) :
  (LocalSparkExecutionCtrl._get_spark_return_code_from_exception message
   = "0"
   ∨ ∃ d, LocalSparkExecutionCtrl._get_spark_return_code_from_exception
            message = String d EmptyString
          ∧ LocalSparkExecutionCtrl.in_class d = true)
  ∧ (∀ g, LocalSparkExecutionCtrl.search message = Some g →
          LocalSparkExecutionCtrl._get_spark_return_code_from_exception
            message = g
          ∧ ∃ pre d x post,
              message
              = pre +:+ "Error code is: " +:+ String d (String x post)
              ∧ LocalSparkExecutionCtrl.in_class d = true
              ∧ LocalSparkExecutionCtrl.any_char x = true
              ∧ g = String d EmptyString)
  ∧ (∀ pre d x post,
       message = pre +:+ "Error code is: " +:+ String d (String x post) →
       LocalSparkExecutionCtrl.in_class d = true →
       LocalSparkExecutionCtrl.any_char x = true →
       is_Some (LocalSparkExecutionCtrl.search message))
  ∧ (LocalSparkExecutionCtrl.search message = None →
     LocalSparkExecutionCtrl._get_spark_return_code_from_exception message
     = "0").
Proof.
  unfold LocalSparkExecutionCtrl._get_spark_return_code_from_exception.
  split.
  { destruct (LocalSparkExecutionCtrl.search message) as [g|] eqn:Hs;
      [|by left].
    apply search_sound in Hs as (pre & d & x & post & _ & Hd & _ & ->).
    right. by exists d. }
  split.
  { intros g Hs. rewrite Hs. split; [done|]. by apply search_sound. }
  split.
  { intros pre d x post -> Hd Hx. by apply search_complete. }
  by intros ->.
Qed.

Lemma spark_return_code_witness :
  LocalSparkExecutionCtrl._get_spark_return_code_from_exception
    "Cannot execute: spark-submit. Error code is: 1."
  = "1"
  ∧ LocalSparkExecutionCtrl._get_spark_return_code_from_exception
      "spark-submit was killed"
    = "0".
Proof.
  split.
  - by apply (spark_return_code
                "Cannot execute: spark-submit. Error code is: 1.").
  - by apply (spark_return_code "spark-submit was killed").
Defined.

(** X26.  The group holds one character and the dot takes the next one:
    for a message that starts with ["Error code is: "], a code of several
    characters is cut to its first one (exit code 127 reads as ["1"]), and
    a code of one character at the very end of the message, with nothing
    after it, is not found and reads as ["0"]. *)
Theorem spark_return_code_first_character (d x : Ascii.ascii)
    (rest : string) :
  LocalSparkExecutionCtrl.in_class d = true →
  LocalSparkExecutionCtrl.any_char x = true →
  LocalSparkExecutionCtrl._get_spark_return_code_from_exception
    ("Error code is: " +:+ String d (String x rest))
  = String d EmptyString
  ∧ LocalSparkExecutionCtrl._get_spark_return_code_from_exception
      ("Error code is: " +:+ String d EmptyString)
    = "0".
Proof.
  intros Hd Hx.
  unfold LocalSparkExecutionCtrl._get_spark_return_code_from_exception.
  split.
  - rewrite (search_here _ (String d EmptyString)); [done|].
    apply match_here_spec. by exists d, x, rest.
  - destruct (LocalSparkExecutionCtrl.search _) as [g|] eqn:Hs; [|done].
    apply search_sound in Hs as (pre & d' & x' & post & Heq & _).
    exfalso.
    apply (f_equal String.length) in Heq.
    rewrite !string_length_app in Heq. cbn in Heq. lia.
Qed.

Lemma spark_return_code_first_character_witness :
  LocalSparkExecutionCtrl._get_spark_return_code_from_exception
    "Error code is: 127."
  = "1".
Proof.
  by apply (spark_return_code_first_character
              (Ascii.ascii_of_nat 49) (Ascii.ascii_of_nat 50) "7.").
Defined.

(** ** dbnd_airflow/executors/kubernetes_executor.py *)

Section SchedulerTerminate.

Import DbndKubernetesScheduler.

Variable kube_delete_pod : string → string → outcome unit.

Lemma delete_all_namespace pod_names self :
  namespace (delete_all kube_delete_pod pod_names self) = namespace self.
Proof.
  revert self. induction pod_names as [|k l IH]; intros self; [done|].
  cbn [delete_all]. by rewrite IH.
Qed.

Lemma delete_all_running_pods pod_names self k :
  running_pods (delete_all kube_delete_pod pod_names self) !! k
  = if bool_decide (k ∈ pod_names) then None else running_pods self !! k.
Proof.
  revert self. induction pod_names as [|k' l IH]; intros self.
  - cbn [delete_all]. by rewrite bool_decide_eq_false_2 by apply not_elem_of_nil.
  - cbn [delete_all]. rewrite IH. cbn [delete_pod fst running_pods].
    destruct (decide (k = k')) as [->|Hne].
    + rewrite (bool_decide_eq_true_2 (k' ∈ k' :: l)) by by left.
      case_bool_decide; [done|]. by rewrite lookup_delete_eq.
    + rewrite lookup_delete_ne by done.
      case_bool_decide as Hin.
      * by rewrite bool_decide_eq_true_2 by by right.
      * rewrite bool_decide_eq_false_2; [done|].
        by intros [?|?]%elem_of_cons.
Qed.

Lemma delete_all_kube_deletes pod_names self :
  kube_deletes (delete_all kube_delete_pod pod_names self)
  = (reverse ((λ k, (k, namespace self)) <$> pod_names)
     ++ kube_deletes self)%list.
Proof.
  revert self. induction pod_names as [|k l IH]; intros self; [done|].
  cbn [delete_all]. rewrite IH. cbn [delete_pod fst namespace kube_deletes].
  rewrite fmap_cons, reverse_cons. by rewrite <- app_assoc.
Qed.

End SchedulerTerminate.

(** X27.  [terminate] forgets and deletes every submitted pod, whatever
    the cluster answers: before the base class's [terminate] runs,
    [running_pods] is empty, [kube_dbnd.delete_pod] has been called once
    for each pod that was running, with the scheduler's namespace, and no
    exception of a deletion has stopped the loop or left it. *)
Theorem terminate_deletes_every_pod
    (kube_delete_pod : string → string → outcome unit)
    (base_terminate : DbndKubernetesScheduler.t
                      → DbndKubernetesScheduler.t * outcome unit)
    (self : DbndKubernetesScheduler.t) :
  ∃ before_base calls,
    DbndKubernetesScheduler.terminate kube_delete_pod base_terminate self
    = base_terminate before_base
    ∧ DbndKubernetesScheduler.running_pods before_base = ∅
    ∧ DbndKubernetesScheduler.namespace before_base
      = DbndKubernetesScheduler.namespace self
    ∧ DbndKubernetesScheduler.kube_deletes before_base
      = (calls ++ DbndKubernetesScheduler.kube_deletes self)%list
    ∧ NoDup calls
    ∧ ∀ pod_id ns,
        (pod_id, ns) ∈ calls
        ↔ is_Some (DbndKubernetesScheduler.running_pods self !! pod_id)
          ∧ ns = DbndKubernetesScheduler.namespace self.
Proof.
  unfold DbndKubernetesScheduler.terminate.
  set (keys := fst <$> map_to_list
                         (DbndKubernetesScheduler.running_pods self)).
  assert (NoDup keys) as Hnodup by apply NoDup_fst_map_to_list.
  assert (∀ k, k ∈ keys
               ↔ is_Some (DbndKubernetesScheduler.running_pods self !! k))
    as Hkeys.
  { intros k. unfold keys. rewrite list_elem_of_fmap. split.
    - intros ([k' v] & -> & Hin%elem_of_map_to_list). by eexists.
    - intros [v Hv]. exists (k, v). split; [done|].
      by apply elem_of_map_to_list. }
  eexists _, _. split; [reflexivity|].
  split.
  { apply map_eq. intros k. rewrite delete_all_running_pods, lookup_empty.
    case_bool_decide as Hin; [done|].
    apply eq_None_not_Some. by rewrite <- Hkeys. }
  split; [apply delete_all_namespace|].
  split; [apply delete_all_kube_deletes|].
  split.
  { rewrite reverse_Permutation.
    apply NoDup_fmap_2; [|done]. by intros k1 k2 [= ->]. }
  intros pod_id ns.
  rewrite elem_of_reverse, list_elem_of_fmap. split.
  - intros (k & [= -> ->] & Hin). split; [by apply Hkeys|done].
  - intros [Hin ->]. exists pod_id. split; [done|by apply Hkeys].
Qed.

Section JobWatcher.

Import DbndKubernetesJobWatcher.

Variable process_pod_event : event → outcome pyval.
Variable process_error : event → outcome pyval.

(** An event that [_run] passes on to [process_status_quite]. *)
Let processed (ev : event) : Prop :=
  event_type ev ≠ "ERROR" ∧ ∃ status, process_pod_event ev = Return status.

Lemma is_status_eq (status : pyval) (name : string) :
  is_status status name = true ↔ status = PyStr name.
Proof.
  destruct status; cbn; try (split; [done | by intros [=]]).
  split.
  - by intros ->%String.eqb_eq.
  - intros [= ->]. apply String.eqb_refl.
Qed.

Lemma process_status_quite_cases (pod_id : string) (status : pyval)
    (labels : gmap string string) (rv : pyval) (q : list queue_entry) :
  (status = PyStr "Failed" ∧
   process_status_quite pod_id status labels rv q
   = (q ++ [(pod_id, Some State_FAILED, labels, rv)])%list) ∨
  (status = PyStr "Succeeded" ∧
   process_status_quite pod_id status labels rv q
   = (q ++ [(pod_id, None, labels, rv)])%list) ∨
  (status ≠ PyStr "Failed" ∧ status ≠ PyStr "Succeeded" ∧
   process_status_quite pod_id status labels rv q = q).
Proof.
  unfold process_status_quite.
  destruct (is_status status "Pending") eqn:Hp.
  { apply is_status_eq in Hp as ->. right; right. by repeat split. }
  destruct (is_status status "Failed") eqn:Hf.
  { apply is_status_eq in Hf as ->. by left. }
  destruct (is_status status "Succeeded") eqn:Hs.
  { apply is_status_eq in Hs as ->. right; by left. }
  right; right. split; [|split].
  - intros H. apply is_status_eq in H. congruence.
  - intros H. apply is_status_eq in H. congruence.
  - by destruct (is_status status "Running").
Qed.

Lemma watch_app (before rest : list event) (last : pyval)
    (q : list queue_entry) :
  Forall processed before →
  ∃ q', watch process_pod_event process_error before last q
        = (q', Return (default last
                         (list.last (pod_resource_version <$> before))))
      ∧ watch process_pod_event process_error (before ++ rest)%list last q
        = watch process_pod_event process_error rest (default last
                        (list.last (pod_resource_version <$> before))) q'.
Proof.
  intros Hall. revert last q.
  induction Hall as [|ev before [Hty [status Hst]] _ IH]; intros last q.
  - by exists q.
  - cbn [DbndKubernetesJobWatcher.watch app].
    apply String.eqb_neq in Hty. rewrite Hty, Hst.
    destruct (IH (pod_resource_version ev)
                 (process_status_quite (pod_name ev) status (pod_labels ev)
                    (pod_resource_version ev) q)) as (q' & H1 & H2).
    exists q'. rewrite H1, H2.
    assert (default last
              (list.last (pod_resource_version <$> ev :: before))
            = default (pod_resource_version ev)
                (list.last (pod_resource_version <$> before))) as ->; [|done].
    rewrite fmap_cons, last_cons.
    by destruct (list.last (pod_resource_version <$> before)).
Qed.

(** X28. [_run] only ever adds to the end of the watcher queue, and what
    it adds are reports of pods of the stream whose status was "Failed"
    (reported with the state "failed") or "Succeeded" (reported with no
    state), each with the pod's own name, labels and resource version;
    when no event is an error event and every status can be computed,
    every failed and every succeeded pod of the stream is reported. *)
Theorem watch_reports_finished_pods (events : list event) (last : pyval)
    (q : list queue_entry) :
  (∃ added,
     (watch process_pod_event process_error events last q).1 = (q ++ added)%list ∧
     Forall (λ entry,
       ∃ ev state,
         ev ∈ events ∧
         entry = (pod_name ev, state, pod_labels ev,
                  pod_resource_version ev) ∧
         (process_pod_event ev = Return (PyStr "Failed") ∧
          state = Some "failed"
          ∨ process_pod_event ev = Return (PyStr "Succeeded") ∧
            state = None)) added) ∧
  (Forall processed events →
   ∀ ev, ev ∈ events →
     (process_pod_event ev = Return (PyStr "Failed") →
      (pod_name ev, Some "failed", pod_labels ev, pod_resource_version ev)
        ∈ (watch process_pod_event process_error events last q).1) ∧
     (process_pod_event ev = Return (PyStr "Succeeded") →
      (pod_name ev, None, pod_labels ev, pod_resource_version ev)
        ∈ (watch process_pod_event process_error events last q).1)).
Proof.
  assert (Hgrow : ∀ events last q, ∃ added,
     (watch process_pod_event process_error events last q).1 = (q ++ added)%list ∧
     Forall (λ entry,
       ∃ ev state,
         ev ∈ events ∧
         entry = (pod_name ev, state, pod_labels ev,
                  pod_resource_version ev) ∧
         (process_pod_event ev = Return (PyStr "Failed") ∧
          state = Some "failed"
          ∨ process_pod_event ev = Return (PyStr "Succeeded") ∧
            state = None)) added).
  { clear. intros events.
    induction events as [|ev events IH]; intros last q.
    { exists []. by rewrite app_nil_r. }
    cbn [DbndKubernetesJobWatcher.watch].
    destruct (String.eqb (event_type ev) "ERROR").
    { exists []. by rewrite app_nil_r. }
    destruct (process_pod_event ev) as [status|e] eqn:Hst.
    2:{ exists []. by rewrite app_nil_r. }
    destruct (IH (pod_resource_version ev)
                (process_status_quite (pod_name ev) status (pod_labels ev)
                   (pod_resource_version ev) q)) as (added & Heq & Hall).
    assert (Hweak : Forall (λ entry,
       ∃ ev0 state,
         ev0 ∈ ev :: events ∧
         entry = (pod_name ev0, state, pod_labels ev0,
                  pod_resource_version ev0) ∧
         (process_pod_event ev0 = Return (PyStr "Failed") ∧
          state = Some "failed"
          ∨ process_pod_event ev0 = Return (PyStr "Succeeded") ∧
            state = None)) added).
    { eapply Forall_impl; [exact Hall|].
      intros entry (ev0 & state & Hin & He & Hs).
      exists ev0, state. split; [by apply elem_of_cons; right|done]. }
    rewrite Heq.
    destruct (process_status_quite_cases (pod_name ev) status (pod_labels ev)
                (pod_resource_version ev) q)
      as [[-> ->]|[[-> ->]|(_ & _ & ->)]].
    - exists ((pod_name ev, Some State_FAILED, pod_labels ev,
               pod_resource_version ev) :: added).
      split; [by rewrite <- app_assoc|].
      constructor; [|done].
      exists ev, (Some "failed"). split; [by apply elem_of_cons; left|].
      split; [done|]. by left.
    - exists ((pod_name ev, None, pod_labels ev,
               pod_resource_version ev) :: added).
      split; [by rewrite <- app_assoc|].
      constructor; [|done].
      exists ev, None. split; [by apply elem_of_cons; left|].
      split; [done|]. by right.
    - by exists added. }
  split; [apply Hgrow|].
  intros Hall. revert last q.
  induction Hall as [|ev0 events [Hty [status Hst]] _ IH]; intros last q ev Hin.
  { by apply elem_of_nil in Hin. }
  cbn [DbndKubernetesJobWatcher.watch].
  apply String.eqb_neq in Hty. rewrite Hty, Hst.
  apply elem_of_cons in Hin as [->|Hin].
  - destruct (Hgrow events (pod_resource_version ev0)
                (process_status_quite (pod_name ev0) status (pod_labels ev0)
                   (pod_resource_version ev0) q)) as (added & -> & _).
    split; intros Hs; rewrite Hst in Hs; injection Hs as ->;
      unfold process_status_quite; cbn;
      rewrite !elem_of_app; left; right; by apply elem_of_cons; left.
  - by apply IH.
Qed.

(** X29. [_run] stops at the first error event: when the events before
    it are processed, the outcome is that of [process_error] on the error
    event and the queue is the one the events before it left, whatever
    follows in the stream; a stream with no error event whose events are
    all processed returns the resource version of its last event, and
    [None] when it is empty. *)
Theorem watch_stops_at_error (before : list event) (q : list queue_entry) :
  Forall processed before →
  (∀ ev after, event_type ev = "ERROR" →
     watch process_pod_event process_error (before ++ ev :: after)%list PyNone q
     = ((watch process_pod_event process_error before PyNone q).1, process_error ev)) ∧
  (watch process_pod_event process_error before PyNone q).2
  = Return (default PyNone (list.last (pod_resource_version <$> before))).
Proof.
  intros Hall. split.
  - intros ev after Hty.
    destruct (watch_app before (ev :: after) PyNone q Hall) as (q' & H1 & H2).
    rewrite H2, H1. cbn [DbndKubernetesJobWatcher.watch fst].
    by rewrite Hty.
  - destruct (watch_app before [] PyNone q Hall) as (q' & H1 & _).
    by rewrite H1.
Qed.

End JobWatcher.

Lemma watch_reports_finished_pods_witness :
  ("extract", Some "failed", {[ "dag_id" := "extract" ]}, PyStr "11")
  ∈ (DbndKubernetesJobWatcher.watch
       sample_watch.process_pod_event sample_watch.process_error
       [sample_watch.pod "ADDED" "transform" "10";
        sample_watch.pod "MODIFIED" "extract" "11";
        sample_watch.pod "MODIFIED" "load" "12"]
       PyNone []).1.
Proof.
  refine (proj1 (proj2 (watch_reports_finished_pods
                          sample_watch.process_pod_event
                          sample_watch.process_error
                          [sample_watch.pod "ADDED" "transform" "10";
                           sample_watch.pod "MODIFIED" "extract" "11";
                           sample_watch.pod "MODIFIED" "load" "12"]
                          PyNone [])
                   _ (sample_watch.pod "MODIFIED" "extract" "11") _) _).
  - repeat (constructor; [split; [done | by eexists] |]). constructor.
  - apply elem_of_cons; right. apply elem_of_cons; by left.
  - reflexivity.
Defined.

Lemma watch_stops_at_error_witness :
  DbndKubernetesJobWatcher.watch
    sample_watch.process_pod_event sample_watch.process_error
    ([sample_watch.pod "MODIFIED" "extract" "11";
      sample_watch.pod "MODIFIED" "transform" "12"]
     ++ sample_watch.pod "ERROR" "load" "13"
     :: [sample_watch.pod "MODIFIED" "load" "14"])%list
    PyNone []
  = ([("extract", Some "failed", {[ "dag_id" := "extract" ]}, PyStr "11")],
     Return (PyStr "0")).
Proof.
  assert (Hbefore : Forall
            (λ ev, DbndKubernetesJobWatcher.event_type ev ≠ "ERROR"
                   ∧ ∃ status, sample_watch.process_pod_event ev
                               = Return status)
            [sample_watch.pod "MODIFIED" "extract" "11";
             sample_watch.pod "MODIFIED" "transform" "12"]).
  { repeat (constructor; [split; [done | by eexists] |]). constructor. }
  rewrite (proj1 (watch_stops_at_error
                    sample_watch.process_pod_event sample_watch.process_error
                    _ [] Hbefore)
             (sample_watch.pod "ERROR" "load" "13")
             [sample_watch.pod "MODIFIED" "load" "14"] eq_refl).
  reflexivity.
Defined.

(** X30. The keyword arguments of the watch process_pod_event process_error stream: a key of the
    configured request arguments is passed with the configured value, also
    in place of the label selector and the resource version; otherwise the
    label selector names the worker, the resource version is passed only
    when it is truthy (not [None], [0] or the empty string), and no other
    key is passed. *)
Theorem stream_kwargs_lookup (worker_uuid : string)
    (resource_version : pyval) (args : option (gmap string pyval))
    (key : string) :
  DbndKubernetesJobWatcher.stream_kwargs worker_uuid resource_version args
    !! key
  = match default ∅ args !! key with
    | Some value => Some value
    | None =>
        if String.eqb key "label_selector"
        then Some (PyStr ("airflow-worker=" +:+ worker_uuid))
        else if String.eqb key "resource_version" && Py.truthy resource_version
        then Some resource_version
        else None
    end.
Proof.
  unfold DbndKubernetesJobWatcher.stream_kwargs.
  set (kw := if Py.truthy resource_version then _ else _).
  assert (Hkw : kw !! key
    = if String.eqb key "label_selector"
      then Some (PyStr ("airflow-worker=" +:+ worker_uuid))
      else if String.eqb key "resource_version" && Py.truthy resource_version
      then Some resource_version
      else None).
  { subst kw. destruct (Py.truthy resource_version).
    - destruct (String.eqb_spec key "label_selector") as [->|Hl].
      { rewrite lookup_insert_ne by done. by rewrite lookup_singleton_eq. }
      destruct (String.eqb_spec key "resource_version") as [->|Hr].
      { by rewrite lookup_insert_eq. }
      rewrite lookup_insert_ne by done. by rewrite lookup_singleton_ne.
    - rewrite andb_false_r.
      destruct (String.eqb_spec key "label_selector") as [->|Hl].
      { by rewrite lookup_singleton_eq. }
      rewrite lookup_singleton_ne by done.
      by destruct (String.eqb key "resource_version"). }
  destruct args as [args|]; unfold default; cbn [from_option]; unfold id.
  - case_bool_decide as He.
    + subst args. by rewrite lookup_empty.
    + rewrite lookup_union. rewrite Hkw.
      destruct (args !! key); [|by destruct (if String.eqb key "label_selector" then _ else _)].
      by destruct (if String.eqb key "label_selector" then _ else _).
  - by rewrite lookup_empty.
Qed.
